(** * The image-partition action of debos

    A shallow embedding of [image_partition_action.go] and the properties
    of its lifecycle methods ([Verify], [PreMachine], [PreNoMachine],
    [Run], [Cleanup]) and of its helpers.

    Conventions of the embedding.
    - A Go [string] is a [string] of bytes; [int] is a 64-bit integer kept
      as a [Z], with the wrap-around of [num++] written out.
    - A Go [error] is an [option string]: [None] is [nil].
    - What a method reaches through a pointer (the receiver of a
      pointer-receiver method, [context *DebosContext], [p *Partition],
      the backing arrays of the slices) lives in the [World]; what it gets
      by value (the receiver of a value-receiver method,
      [context DebosContext]) is an argument of the Rocq function.
    - Every operation on the outside world (external commands, system
      calls, the fakemachine) is a [Call]: it is appended to the trace of
      the world and answered by the environment.
    - A runtime panic (index out of range, nil dereference) is the
      [Panicked] result. *)

From Stdlib Require Import ZArith Ascii DecimalString DecimalPos DecimalZ.
From stdpp Require Import base list strings.

(** ** Data model *)

(** Go's [error] values. *)
Definition error : Type := option string.

(** [type Partition struct]. [Flags] is a list: ranging over a nil slice
    and over an empty one both run no iteration, so the guard
    [p.Flags != nil] of [Run] makes no difference. *)
Module Partition.
Record t : Type := mk {
  number : Z;
  Name : string;
  Start : string;
  End_ : string;
  FS : string;
  Flags : list string;
  FSUUID : string
}.

Definition set_number (n : Z) (p : t) : t :=
  mk n (Name p) (Start p) (End_ p) (FS p) (Flags p) (FSUUID p).

Definition set_FSUUID (u : string) (p : t) : t :=
  mk (number p) (Name p) (Start p) (End_ p) (FS p) (Flags p) u.
End Partition.

(** [type Mountpoint struct]. The pointer [part *Partition] always points
    into the backing array of [i.Partitions]: it is the index of the
    element, [None] for [nil]. *)
Module Mountpoint.
Record t : Type := mk {
  Mountpoint : string;
  Partition : string;
  Options : list string;
  part : option nat
}.

Definition set_part (p : option nat) (m : t) : t :=
  mk (Mountpoint m) (Partition m) (Options m) p.
End Mountpoint.

(** [type ImagePartitionAction struct] (the embedded [BaseAction] only
    brings [LogStart]). *)
Module ImagePartitionAction.
Record t : Type := mk {
  ImageName : string;
  ImageSize : string;
  PartitionType : string;
  Partitions : list Partition.t;
  Mountpoints : list Mountpoint.t;
  size : Z;
  usingLoop : bool
}.

Definition set_Partitions (ps : list Partition.t) (i : t) : t :=
  mk (ImageName i) (ImageSize i) (PartitionType i) ps (Mountpoints i)
     (size i) (usingLoop i).

Definition set_Mountpoints (ms : list Mountpoint.t) (i : t) : t :=
  mk (ImageName i) (ImageSize i) (PartitionType i) (Partitions i) ms
     (size i) (usingLoop i).

Definition set_size (n : Z) (i : t) : t :=
  mk (ImageName i) (ImageSize i) (PartitionType i) (Partitions i)
     (Mountpoints i) n (usingLoop i).

Definition set_usingLoop (b : bool) (i : t) : t :=
  mk (ImageName i) (ImageSize i) (PartitionType i) (Partitions i)
     (Mountpoints i) (size i) b.
End ImagePartitionAction.

(** The fields of [DebosContext] this file uses; [imageFSTab] is the
    content of the [bytes.Buffer]. *)
Module DebosContext.
Record t : Type := mk {
  scratchdir : string;
  image : string;
  imageMntDir : string;
  imageFSTab : string;
  imageKernelRoot : string
}.

Definition set_image (s : string) (c : t) : t :=
  mk (scratchdir c) s (imageMntDir c) (imageFSTab c) (imageKernelRoot c).

Definition set_imageMntDir (s : string) (c : t) : t :=
  mk (scratchdir c) (image c) s (imageFSTab c) (imageKernelRoot c).

Definition set_imageFSTab (s : string) (c : t) : t :=
  mk (scratchdir c) (image c) (imageMntDir c) s (imageKernelRoot c).

Definition set_imageKernelRoot (s : string) (c : t) : t :=
  mk (scratchdir c) (image c) (imageMntDir c) (imageFSTab c) s.
End DebosContext.

(** ** The outside world *)

(** The operations the action performs on its collaborators. *)
Inductive Call : Type :=
| LogStart                                          (* i.LogStart() *)
| CreateImage (name : string) (size : Z)            (* m.CreateImage(name, size) *)
| CommandRun (label : string) (cmdline : list string)
                                                    (* Command{}.Run(label, cmdline...) *)
| ExecOutput (name : string) (args : list string)   (* exec.Command(name, args...).Output() *)
| ExecRun (name : string) (args : list string)      (* exec.Command(name, args...).Run() *)
| OpenFile (name : string)                          (* os.OpenFile(name, O_WRONLY|O_CREATE, 0666) *)
| Truncate (name : string) (size : Z)               (* img.Truncate(size) *)
| Close (name : string)                             (* img.Close() *)
| MkdirAll (path : string) (perm : Z)               (* os.MkdirAll(path, perm) *)
| Mount (source target fstype : string)             (* syscall.Mount(source, target, fstype, 0, "") *)
| Unmount (target : string).                        (* syscall.Unmount(target, 0) *)

(** What a call answers: its error, and its output where it has one. *)
Record Reply : Type := mkReply { rerr : error; rout : string }.

(** The environment answers a call from the calls made before it. *)
Definition Env : Type := list Call -> Call -> Reply.

(** The store shared by the lifecycle methods: the action the engine
    holds a pointer to, the build context it passes by reference, and the
    calls made so far, oldest first. *)
Record World : Type := mkWorld {
  self : ImagePartitionAction.t;
  context : DebosContext.t;
  trace : list Call
}.

Definition emit (c : Call) (w : World) : World :=
  mkWorld (self w) (context w) (trace w ++ [c]).

(** ** Results and the monad of the methods *)

Inductive Panic : Type := IndexOutOfRange | NilDereference.

Inductive Result (A : Type) : Type :=
| Ok (a : A)
| Panicked (p : Panic).
Arguments Ok {A} a.
Arguments Panicked {A} p.

Definition M (A : Type) : Type := World -> Result (A * World).

Definition ret {A : Type} (a : A) : M A := fun w => Ok (a, w).

Definition bind {A B : Type} (m : M A) (k : A -> M B) : M B :=
  fun w => match m w with
           | Ok (a, w') => k a w'
           | Panicked p => Panicked p
           end.

Declare Scope go_scope.
Delimit Scope go_scope with go.
Notation "x <- m ;; k" := (bind m (fun x => k))
  (at level 100, m at next level, right associativity) : go_scope.
Notation "m ;; k" := (bind m (fun _ => k))
  (at level 100, right associativity) : go_scope.

Definition lift {A : Type} (r : Result A) : M A :=
  fun w => match r with
           | Ok a => Ok (a, w)
           | Panicked p => Panicked p
           end.

Definition get_self : M ImagePartitionAction.t := fun w => Ok (self w, w).
Definition put_self (i : ImagePartitionAction.t) : M unit :=
  fun w => Ok (tt, mkWorld i (context w) (trace w)).
Definition get_context : M DebosContext.t := fun w => Ok (context w, w).
Definition put_context (c : DebosContext.t) : M unit :=
  fun w => Ok (tt, mkWorld (self w) c (trace w)).

(** [s[idx]] on a slice. *)
Definition index {A : Type} (l : list A) (idx : nat) : Result A :=
  match l !! idx with
  | Some a => Ok a
  | None => Panicked IndexOutOfRange
  end.

(** ** Formatting and integers *)

(** The verb [%d] of [fmt.Sprintf]. *)
Definition fmt_d (n : Z) : string := NilZero.string_of_int (Z.to_int n).

(** The escapes [\t] and [\n] of Go's string literals. *)
Definition tab : string := String (ascii_of_nat 9) EmptyString.
Definition newline : string := String (ascii_of_nat 10) EmptyString.

(** [int] on the 64-bit build hosts. *)
Definition intSize : Z := 64.
Definition int_wrap (n : Z) : Z :=
  ((n + 2 ^ (intSize - 1)) mod 2 ^ intSize - 2 ^ (intSize - 1))%Z.

(** The largest [int]. *)
Definition max_int : Z := (2 ^ (intSize - 1) - 1)%Z.

(** [s[len(s)-1]]: the last byte, [None] where the index is out of range. *)
Fixpoint last_byte (s : string) : option ascii :=
  match s with
  | EmptyString => None
  | String c EmptyString => Some c
  | String _ rest => last_byte rest
  end.

(** [last >= '0' && last <= '9']. *)
Definition is_digit (last : ascii) : bool :=
  (Ascii.leb "0" last && Ascii.leb last "9")%char.

(** The decimal digits, as the documentation of the action names them. *)
Definition decimal_digits : list ascii :=
  String.list_ascii_of_string "0123456789".

(** The command line [formatPartition] builds for the partition [p] at
    the device [path]: [cmdline := []string{}], the [switch p.FS], and
    the final [append(cmdline, path)]. *)
Definition formatPartition_cmdline (p : Partition.t) (path : string)
    : list string :=
  let cmdline : list string := [] in
  let cmdline :=
    if String.eqb (Partition.FS p) "fat32" then
      cmdline ++ ["mkfs.vfat"; "-n"; Partition.Name p]
    else
      cmdline ++ [("mkfs." +:+ Partition.FS p)%string; "-L"; Partition.Name p] in
  cmdline ++ [path].

(** The two ways of getting a backing device. *)
Inductive Provisioning : Type := InMachine | OnHost.

(** ** Sample collaborators and inputs

    Stand-ins for the library functions and for the outside world, used
    to run the methods on concrete inputs. *)

(** Drops doubled and trailing slashes. *)
Fixpoint squeeze_slashes (s : string) : string :=
  match s with
  | EmptyString => EmptyString
  | String c rest =>
      if Ascii.eqb c "/" then
        match rest with
        | EmptyString => EmptyString
        | String c' _ =>
            if Ascii.eqb c' "/" then squeeze_slashes rest
            else String c (squeeze_slashes rest)
        end
      else String c (squeeze_slashes rest)
  end.

(** Agrees with [path.Join] on non-empty elements, the first of them
    absolute, none with a [.] or [..] component. *)
Definition sample_Join (elem : list string) : string :=
  let s := squeeze_slashes (String.concat "/" elem) in
  if String.eqb s "" then "/"%string else s.

Definition is_ascii_space (c : ascii) : bool :=
  let n := nat_of_ascii c in
  Nat.eqb n 32 || (Nat.leb 9 n && Nat.leb n 13).

Fixpoint trim_left (s : string) : string :=
  match s with
  | EmptyString => EmptyString
  | String c rest => if is_ascii_space c then trim_left rest else s
  end.

Fixpoint trim_right (s : string) : string :=
  match s with
  | EmptyString => EmptyString
  | String c rest =>
      let rest' := trim_right rest in
      if is_ascii_space c && String.eqb rest' "" then EmptyString
      else String c rest'
  end.

(** Agrees with [strings.TrimSpace] on ASCII text. *)
Definition sample_TrimSpace (s : string) : string := trim_right (trim_left s).

(** Knows the one size the samples use. *)
Definition sample_FromHumanSize (s : string) : Z * error :=
  if String.eqb s "1GiB" then (1073741824%Z, None)
  else ((-1)%Z, Some "invalid size"%string).

(** Every call succeeds; [losetup] prints the loop device, and [blkid]
    a UUID that depends on the last character of the device it probes. *)
Definition env_ok : Env := fun _ c =>
  match c with
  | ExecOutput "losetup" _ => mkReply None ("/dev/loop0" +:+ newline)
  | ExecOutput "blkid" args =>
      match last_byte (List.last args "") with
      | Some "1"%char => mkReply None ("ABCD-1234" +:+ newline)
      | _ => mkReply None ("5e5d1a6c-2c0b-4c3f-9a57-7d1f0c2e9b02" +:+ newline)
      end
  | _ => mkReply None ""
  end.

(** As [env_ok], but every mkfs command fails. *)
Definition env_mkfs_fails : Env := fun tr c =>
  match c with
  | CommandRun label _ =>
      if String.prefix "Formatting partition" label
      then mkReply (Some "exit status 1"%string) ""
      else mkReply None ""
  | _ => env_ok tr c
  end.

(** A GPT image with an EFI and a root partition, as decoded from a
    recipe: ordinals, bindings, size and loop flag at their zero values. *)
Definition sample_action : ImagePartitionAction.t :=
  ImagePartitionAction.mk "disk.img" "1GiB" "gpt"
    [Partition.mk 0 "EFI" "0%" "10%" "fat32" ["boot"; "esp"]%string "";
     Partition.mk 0 "root" "10%" "100%" "ext4" [] ""]
    [Mountpoint.mk "/" "root" [] None;
     Mountpoint.mk "/boot/efi" "EFI" ["noatime"%string] None]
    0 false.

Definition sample_context : DebosContext.t :=
  DebosContext.mk "/scratch" "" "" "" "".

Definition sample_world : World := mkWorld sample_action sample_context [].

(** As [env_ok], but every unmount fails. *)
Definition env_unmount_fails : Env := fun tr c =>
  match c with
  | Unmount _ => mkReply (Some "device or resource busy"%string) ""
  | _ => env_ok tr c
  end.

(** [sample_action] after a successful [Verify]. *)
Definition sample_verified_action : ImagePartitionAction.t :=
  ImagePartitionAction.mk "disk.img" "1GiB" "gpt"
    [Partition.mk 1 "EFI" "0%" "10%" "fat32" ["boot"; "esp"]%string "";
     Partition.mk 2 "root" "10%" "100%" "ext4" [] ""]
    [Mountpoint.mk "/" "root" [] (Some 1%nat);
     Mountpoint.mk "/boot/efi" "EFI" ["noatime"%string] (Some 0%nat)]
    1073741824 false.

(** [sample_verified_action] after its partitions were formatted. *)
Definition sample_formatted_action : ImagePartitionAction.t :=
  ImagePartitionAction.mk "disk.img" "1GiB" "gpt"
    [Partition.mk 1 "EFI" "0%" "10%" "fat32" ["boot"; "esp"]%string "ABCD-1234";
     Partition.mk 2 "root" "10%" "100%" "ext4" []
       "5e5d1a6c-2c0b-4c3f-9a57-7d1f0c2e9b02"]
    [Mountpoint.mk "/" "root" [] (Some 1%nat);
     Mountpoint.mk "/boot/efi" "EFI" ["noatime"%string] (Some 0%nat)]
    1073741824 false.

(** The context once a loop device, or the virtual disk, is the backing
    device. *)
Definition sample_loop_context : DebosContext.t :=
  DebosContext.mk "/scratch" "/dev/loop0" "" "" "".

Definition sample_vda_context : DebosContext.t :=
  DebosContext.mk "/scratch" "/dev/vda" "" "" "".

(** One root mountpoint, on a partition whose UUID is ABCD-1234. *)
Definition single_root_action : ImagePartitionAction.t :=
  ImagePartitionAction.mk "disk.img" "1GiB" "gpt"
    [Partition.mk 1 "root" "0%" "100%" "ext4" [] "ABCD-1234"]
    [Mountpoint.mk "/" "root" [] (Some 0%nat)]
    1073741824 false.



(** A mountpoint that refers to a partition nobody declared. *)
Definition dangling_action : ImagePartitionAction.t :=
  ImagePartitionAction.mk "disk.img" "1GiB" "gpt"
    [Partition.mk 0 "root" "0%" "100%" "ext4" [] ""]
    [Mountpoint.mk "/" "root" [] None;
     Mountpoint.mk "/home" "home" [] None]
    0 false.

(** Three nested mountpoints on one partition. *)
Definition nested_action : ImagePartitionAction.t :=
  ImagePartitionAction.mk "disk.img" "1GiB" "gpt"
    [Partition.mk 1 "root" "0%" "100%" "ext4" [] "ABCD-1234"]
    [Mountpoint.mk "/" "root" [] (Some 0%nat);
     Mountpoint.mk "/boot" "root" [] (Some 0%nat);
     Mountpoint.mk "/boot/efi" "root" [] (Some 0%nat)]
    1073741824 false.

(** Two mountpoints on the root path: the first on a formatted
    partition, the second on a partition whose UUID is empty. *)
Definition two_roots_action : ImagePartitionAction.t :=
  ImagePartitionAction.mk "disk.img" "1GiB" "gpt"
    [Partition.mk 1 "a" "0%" "50%" "ext4" [] "ABCD-1234";
     Partition.mk 2 "b" "50%" "100%" "ext4" [] ""]
    [Mountpoint.mk "/" "a" [] (Some 0%nat);
     Mountpoint.mk "/" "b" [] (Some 1%nat)]
    1073741824 false.

Definition two_roots_world : World :=
  mkWorld two_roots_action sample_context [].

(** The verified sample on the virtual disk, as [Run] finds it. *)
Definition sample_verified_world : World :=
  mkWorld sample_verified_action sample_vda_context [].

(** The formatted sample with its mount directory set, as the mount
    loop of [Run] finds it. *)
Definition sample_mounting_world : World :=
  mkWorld sample_formatted_action
    (DebosContext.mk "/scratch" "/dev/vda" "/scratch/mnt" "" "") [].

(** As [env_ok], but the mount on [/boot/efi] fails. *)
Definition env_mount_fails : Env := fun tr c =>
  match c with
  | Mount _ "/scratch/mnt/boot/efi" _ => mkReply (Some "no such device"%string) ""
  | _ => env_ok tr c
  end.

(** The second of three partitions lacks its end, the third everything
    but its name. *)
Definition incomplete_action : ImagePartitionAction.t :=
  ImagePartitionAction.mk "disk.img" "1GiB" "gpt"
    [Partition.mk 0 "EFI" "0%" "10%" "fat32" [] "";
     Partition.mk 0 "root" "10%" "" "ext4" [] "";
     Partition.mk 0 "home" "" "" "" [] ""]
    [Mountpoint.mk "/" "root" [] None]
    0 false.

(** [sample_action] with a size that does not parse. *)
Definition bad_size_action : ImagePartitionAction.t :=
  ImagePartitionAction.mk "disk.img" "lots" "gpt"
    [Partition.mk 0 "EFI" "0%" "10%" "fat32" ["boot"; "esp"]%string "";
     Partition.mk 0 "root" "10%" "100%" "ext4" [] ""]
    [Mountpoint.mk "/" "root" [] None;
     Mountpoint.mk "/boot/efi" "EFI" ["noatime"%string] None]
    0 false.


(** ** The methods of the action *)

Section Action.
Local Open Scope go_scope.

(** The answers of the outside world. *)
Variable env : Env.

(** Library functions the action calls: [path.Join], [strings.TrimSpace]
    and [units.FromHumanSize] (go-units). *)
Variable path_Join : list string -> string.
Variable TrimSpace : string -> string.
Variable FromHumanSize : string -> Z * error.

(** One operation on the outside world: recorded, then answered. *)
Definition call (c : Call) : M Reply :=
  fun w => Ok (env (trace w) c, emit c w).

(** Reads and writes through [&i.Partitions[idx]] and
    [&i.Mountpoints[idx]]: the backing arrays are shared by every copy
    of the receiver. *)
Definition load_partition (idx : nat) : M Partition.t :=
  i <- get_self ;;
  lift (index (ImagePartitionAction.Partitions i) idx).

Definition store_partition (idx : nat) (p : Partition.t) : M unit :=
  i <- get_self ;;
  put_self (ImagePartitionAction.set_Partitions
              (<[idx := p]> (ImagePartitionAction.Partitions i)) i).

Definition load_mountpoint (idx : nat) : M Mountpoint.t :=
  i <- get_self ;;
  lift (index (ImagePartitionAction.Mountpoints i) idx).

Definition store_mountpoint (idx : nat) (m : Mountpoint.t) : M unit :=
  i <- get_self ;;
  put_self (ImagePartitionAction.set_Mountpoints
              (<[idx := m]> (ImagePartitionAction.Mountpoints i)) i).

(** [*m.part]: a nil pointer panics. *)
Definition deref_part (m : Mountpoint.t) : M Partition.t :=
  match Mountpoint.part m with
  | None => lift (Panicked NilDereference)
  | Some idx => load_partition idx
  end.

(** *** generateFSTab *)

(** The body of [for _, m := range i.Mountpoints]. *)
Fixpoint generateFSTab_loop (ms : list Mountpoint.t) : M error :=
  match ms with
  | [] => ret None
  | m :: rest =>
      let options := ["defaults"] in
      let options := (options ++ Mountpoint.Options m)%list in
      p <- deref_part m ;;
      if String.eqb (Partition.FSUUID p) "" then
        ret (Some ("Missing fs UUID for partition " +:+ Partition.Name p +:+ "!?!"))
      else
        context <- get_context ;;
        put_context (DebosContext.set_imageFSTab
          (DebosContext.imageFSTab context +:+
             ("UUID=" +:+ Partition.FSUUID p +:+ tab +:+ Mountpoint.Mountpoint m
              +:+ tab +:+ Partition.FS p +:+ tab +:+ String.concat "," options
              +:+ tab +:+ "0" +:+ tab +:+ "0" +:+ newline)) context) ;;
        generateFSTab_loop rest
  end.

(** The receiver is a pointer the method only reads through: [i] is
    the struct it designates (in [Run], the copy [Run] was called
    on). *)
Definition generateFSTab (i : ImagePartitionAction.t) : M error :=
  context <- get_context ;;
  put_context (DebosContext.set_imageFSTab "" context) ;;   (* Reset() *)
  generateFSTab_loop (ImagePartitionAction.Mountpoints i).

(** *** generateKernelRoot *)

(** The body of [for _, m := range i.Mountpoints]; [break] leaves the
    loop after the first mountpoint whose path is "/". *)
Fixpoint generateKernelRoot_loop (ms : list Mountpoint.t) : M error :=
  match ms with
  | [] => ret None
  | m :: rest =>
      if String.eqb (Mountpoint.Mountpoint m) "/" then
        p <- deref_part m ;;
        if String.eqb (Partition.FSUUID p) "" then
          ret (Some "No fs UUID for root partition !?!")
        else
          context <- get_context ;;
          put_context (DebosContext.set_imageKernelRoot
                         ("root=UUID=" +:+ Partition.FSUUID p) context) ;;
          ret None
      else generateKernelRoot_loop rest
  end.

(** As for [generateFSTab], [i] is the struct the receiver designates. *)
Definition generateKernelRoot (i : ImagePartitionAction.t) : M error :=
  generateKernelRoot_loop (ImagePartitionAction.Mountpoints i).

(** *** getPartitionDevice *)

Definition getPartitionDevice (i : ImagePartitionAction.t) (number : Z)
    (context : DebosContext.t) : Result string :=
  match last_byte (DebosContext.image context) with
  | None => Panicked IndexOutOfRange
  | Some last =>
      if is_digit last then
        Ok (DebosContext.image context +:+ "p" +:+ fmt_d number)
      else
        Ok (DebosContext.image context +:+ fmt_d number)
  end.

(** *** PreMachine *)

(** [args *[]string] is returned as the slice it points to afterwards. *)
Definition PreMachine (i : ImagePartitionAction.t) (args : list string)
    : M (list string * error) :=
  r <- call (CreateImage (ImagePartitionAction.ImageName i)
                         (ImagePartitionAction.size i)) ;;
  match rerr r with
  | Some err => ret (args, Some err)
  | None =>
      context <- get_context ;;
      put_context (DebosContext.set_image "/dev/vda" context) ;;
      ret ((args ++ ["--internal-image"; "/dev/vda"])%list, None)
  end.

(** *** formatPartition *)

(** [p] is the pointer [&i.Partitions[p]]. The value [Command{}.Run]
    returns is dropped, as in the source. *)
Definition formatPartition (i : ImagePartitionAction.t) (p : nat)
    (context : DebosContext.t) : M error :=
  p_ <- load_partition p ;;
  let label := "Formatting partition " +:+ fmt_d (Partition.number p_) in
  path <- lift (getPartitionDevice i (Partition.number p_) context) ;;
  let cmdline := formatPartition_cmdline p_ path in
  call (CommandRun label cmdline) ;;
  r <- call (ExecOutput "blkid"
               ["-o"; "value"; "-s"; "UUID"; "-p"; "-c"; "none"; path]) ;;
  match rerr r with
  | Some err => ret (Some ("Failed to get uuid: " +:+ err))
  | None =>
      p_ <- load_partition p ;;
      store_partition p (Partition.set_FSUUID (TrimSpace (rout r)) p_) ;;
      ret None
  end.

(** *** PreNoMachine *)

(** The receiver is a value: [i.usingLoop = true] writes the copy the
    method was called on, which is dropped when it returns. *)
Definition PreNoMachine (i : ImagePartitionAction.t) : M error :=
  r <- call (OpenFile (ImagePartitionAction.ImageName i)) ;;
  match rerr r with
  | Some err => ret (Some ("Couldn't open image file: " +:+ err))
  | None =>
      r <- call (Truncate (ImagePartitionAction.ImageName i)
                          (ImagePartitionAction.size i)) ;;
      match rerr r with
      | Some err => ret (Some ("Couldn't resize image file: " +:+ err))
      | None =>
          call (Close (ImagePartitionAction.ImageName i)) ;;
          r <- call (ExecOutput "losetup"
                       ["-f"; "--show"; ImagePartitionAction.ImageName i]) ;;
          match rerr r with
          | Some _ => ret (Some "Failed to setup loop device")
          | None =>
              context <- get_context ;;
              put_context (DebosContext.set_image (TrimSpace (rout r)) context) ;;
              let i := ImagePartitionAction.set_usingLoop true i in
              ret None
          end
      end
  end.

(** *** Run *)

(** [for _, flag := range p.Flags] for the partition at [&i.Partitions[p]]. *)
Fixpoint Run_flags (p : nat) (flags : list string) : M error :=
  match flags with
  | [] => ret None
  | flag :: rest =>
      context <- get_context ;;
      p_ <- load_partition p ;;
      r <- call (CommandRun "parted"
                   ["parted"; "-s"; DebosContext.image context; "set";
                    fmt_d (Partition.number p_); flag; "on"]) ;;
      match rerr r with
      | Some err => ret (Some err)
      | None => Run_flags p rest
      end
  end.

(** [for idx, _ := range i.Partitions], over the indices still to visit. *)
Fixpoint Run_partitions (i : ImagePartitionAction.t) (idxs : list nat)
    : M error :=
  match idxs with
  | [] => ret None
  | idx :: rest =>
      p <- load_partition idx ;;
      let name :=
        if String.eqb (ImagePartitionAction.PartitionType i) "gpt"
        then Partition.Name p else "primary" in
      context <- get_context ;;
      r <- call (CommandRun "parted"
                   ["parted"; "-a"; "none"; "-s"; DebosContext.image context;
                    "mkpart"; name; Partition.FS p; Partition.Start p;
                    Partition.End_ p]) ;;
      match rerr r with
      | Some err => ret (Some err)
      | None =>
          err <- Run_flags idx (Partition.Flags p) ;;
          match err with
          | Some err => ret (Some err)
          | None =>
              context <- get_context ;;
              err <- formatPartition i idx context ;;
              match err with
              | Some err => ret (Some err)
              | None => Run_partitions i rest
              end
          end
      end
  end.

(** [for _, m := range i.Mountpoints]. *)
Fixpoint Run_mounts (i : ImagePartitionAction.t) (ms : list Mountpoint.t)
    : M error :=
  match ms with
  | [] => ret None
  | m :: rest =>
      part <- deref_part m ;;
      context <- get_context ;;
      dev <- lift (getPartitionDevice i (Partition.number part) context) ;;
      let mntpath :=
        path_Join [DebosContext.imageMntDir context; Mountpoint.Mountpoint m] in
      call (MkdirAll mntpath 755) ;;
      let fs :=
        if String.eqb (Partition.FS part) "fat32" then "vfat"
        else Partition.FS part in
      r <- call (Mount dev mntpath fs) ;;
      match rerr r with
      | Some err =>
          ret (Some (Partition.Name part +:+ " mount failed: " +:+ err))
      | None => Run_mounts i rest
      end
  end.

Definition Run (i : ImagePartitionAction.t) : M error :=
  call LogStart ;;
  context <- get_context ;;
  r <- call (CommandRun "parted"
               ["parted"; "-s"; DebosContext.image context; "mklabel";
                ImagePartitionAction.PartitionType i]) ;;
  match rerr r with
  | Some err => ret (Some err)
  | None =>
      err <- Run_partitions i (seq 0 (length (ImagePartitionAction.Partitions i))) ;;
      match err with
      | Some err => ret (Some err)
      | None =>
          context <- get_context ;;
          put_context (DebosContext.set_imageMntDir
                         (path_Join [DebosContext.scratchdir context; "mnt"])
                         context) ;;
          context <- get_context ;;
          call (MkdirAll (DebosContext.imageMntDir context) 755) ;;
          err <- Run_mounts i (ImagePartitionAction.Mountpoints i) ;;
          match err with
          | Some err => ret (Some err)
          | None =>
              err <- generateFSTab i ;;
              match err with
              | Some err => ret (Some err)
              | None =>
                  err <- generateKernelRoot i ;;
                  match err with
                  | Some err => ret (Some err)
                  | None => ret None
                  end
              end
          end
      end
  end.

(** *** Cleanup *)

(** [for idx := len(i.Mountpoints) - 1; idx >= 0; idx--], entered with
    [idx + 1 = n]. The value [syscall.Unmount] returns is dropped. *)
Fixpoint Cleanup_unmounts (i : ImagePartitionAction.t)
    (context : DebosContext.t) (n : nat) : M unit :=
  match n with
  | O => ret tt
  | S idx =>
      m <- lift (index (ImagePartitionAction.Mountpoints i) idx) ;;
      let mntpath :=
        path_Join [DebosContext.imageMntDir context; Mountpoint.Mountpoint m] in
      call (Unmount mntpath) ;;
      Cleanup_unmounts i context idx
  end.

Definition Cleanup (i : ImagePartitionAction.t) (context : DebosContext.t)
    : M error :=
  Cleanup_unmounts i context (length (ImagePartitionAction.Mountpoints i)) ;;
  (if ImagePartitionAction.usingLoop i then
     call (ExecRun "losetup" ["-d"; DebosContext.image context]) ;; ret tt
   else ret tt) ;;
  ret None.

(** *** Verify *)

(** [for idx, _ := range i.Partitions], entered with the counter [num],
    over the indices still to visit. *)
Fixpoint Verify_partitions (num : Z) (idxs : list nat) : M error :=
  match idxs with
  | [] => ret None
  | idx :: rest =>
      p <- load_partition idx ;;
      store_partition idx (Partition.set_number num p) ;;
      let num := int_wrap (num + 1) in
      p <- load_partition idx ;;
      if String.eqb (Partition.Name p) "" then
        ret (Some "Partition without a name")
      else if String.eqb (Partition.Start p) "" then
        ret (Some ("Partition " +:+ Partition.Name p +:+ " missing start"))
      else if String.eqb (Partition.End_ p) "" then
        ret (Some ("Partition " +:+ Partition.Name p +:+ " missing end"))
      else if String.eqb (Partition.FS p) "" then
        ret (Some ("Partition " +:+ Partition.Name p +:+ " missing fs type"))
      else Verify_partitions num rest
  end.

(** [for pidx, _ := range i.Partitions] on the partitions from index
    [pidx] on: the pointer assigned to [m.part] before [break], if any. *)
Fixpoint Verify_scan (name : string) (ps : list Partition.t) (pidx : nat)
    : option nat :=
  match ps with
  | [] => None
  | p :: rest =>
      if String.eqb name (Partition.Name p) then Some pidx
      else Verify_scan name rest (S pidx)
  end.

(** [for idx, _ := range i.Mountpoints], over the indices still to visit. *)
Fixpoint Verify_mountpoints (idxs : list nat) : M error :=
  match idxs with
  | [] => ret None
  | idx :: rest =>
      m <- load_mountpoint idx ;;
      i <- get_self ;;
      match Verify_scan (Mountpoint.Partition m)
                        (ImagePartitionAction.Partitions i) 0 with
      | Some p => store_mountpoint idx (Mountpoint.set_part (Some p) m)
      | None => ret tt
      end ;;
      m <- load_mountpoint idx ;;
      match Mountpoint.part m with
      | None =>
          ret (Some ("Couldn't fount partition for " +:+ Mountpoint.Mountpoint m))
      | Some _ => Verify_mountpoints rest
      end
  end.

(** The receiver is a pointer: [Verify] works on the action of the
    world. *)
Definition Verify : M error :=
  i <- get_self ;;
  err <- Verify_partitions 1 (seq 0 (length (ImagePartitionAction.Partitions i))) ;;
  match err with
  | Some err => ret (Some err)
  | None =>
      err <- Verify_mountpoints
               (seq 0 (length (ImagePartitionAction.Mountpoints i))) ;;
      match err with
      | Some err => ret (Some err)
      | None =>
          i <- get_self ;;
          let (size, err) := FromHumanSize (ImagePartitionAction.ImageSize i) in
          match err with
          | Some _ =>
              ret (Some ("Failed to parse image size: "
                         +:+ ImagePartitionAction.ImageSize i))
          | None =>
              put_self (ImagePartitionAction.set_size size i) ;;
              ret None
          end
      end
  end.

(** *** The engine *)

(** Modelled from the spec: the lifecycle driver, which is not part of
    this file. It calls the methods on the one action it holds, in the
    fixed sequence Verify, then PreMachine or PreNoMachine, then Run,
    then Cleanup; it stops at the first fatal error, and once
    provisioning has succeeded it runs Cleanup on every exit path. *)
Definition lifecycle (how : Provisioning) : M error :=
  err <- Verify ;;
  match err with
  | Some err => ret (Some err)
  | None =>
      i <- get_self ;;
      err <- match how with
             | InMachine => r <- PreMachine i [] ;; ret (snd r)
             | OnHost => PreNoMachine i
             end ;;
      match err with
      | Some err => ret (Some err)
      | None =>
          i <- get_self ;;
          err <- Run i ;;
          i <- get_self ;;
          context <- get_context ;;
          Cleanup i context ;;
          ret err
      end
  end.

(** ** What the loops compute

    Closed forms of the loops of the methods, which the properties
    below relate to the methods themselves. *)

(** The unmount of one mountpoint, as [Cleanup] issues it. *)
Definition Cleanup_unmount (context0 : DebosContext.t) (m : Mountpoint.t)
    : Call :=
  Unmount (path_Join [DebosContext.imageMntDir context0; Mountpoint.Mountpoint m]).

(** The partition a mountpoint is bound to, in the partitions [ps] of
    the action: what [*m.part] reads. *)
Definition bound_partition (ps : list Partition.t) (m : Mountpoint.t)
    : option Partition.t :=
  match Mountpoint.part m with
  | Some k => ps !! k
  | None => None
  end.

(** The mountpoint is bound to a partition whose UUID is known. *)
Definition has_UUID (ps : list Partition.t) (m : Mountpoint.t) : Prop :=
  exists p, bound_partition ps m = Some p /\ Partition.FSUUID p <> "".

(** The mountpoint does not target the root path. *)
Definition not_root (m : Mountpoint.t) : Prop := Mountpoint.Mountpoint m <> "/".

(** One line of fstab: UUID, mount path, filesystem type, the options
    after "defaults" and joined by commas, and the two zero fields,
    separated by tabs and ended by a newline. *)
Definition fstab_line (p : Partition.t) (m : Mountpoint.t) : string :=
  "UUID=" +:+ Partition.FSUUID p +:+ tab +:+ Mountpoint.Mountpoint m
  +:+ tab +:+ Partition.FS p +:+ tab
  +:+ String.concat "," ("defaults" :: Mountpoint.Options m)
  +:+ tab +:+ "0" +:+ tab +:+ "0" +:+ newline.

(** The fstab of a list of mountpoints: one line each, in order. *)
Fixpoint fstab_of (ps : list Partition.t) (ms : list Mountpoint.t) : string :=
  match ms with
  | [] => ""
  | m :: rest =>
      match bound_partition ps m with
      | Some p => fstab_line p m +:+ fstab_of ps rest
      | None => ""
      end
  end.

(** The checks [Verify] makes on one partition, in order. *)
Definition Verify_partition_error (p : Partition.t) : error :=
  if String.eqb (Partition.Name p) "" then
    Some "Partition without a name"
  else if String.eqb (Partition.Start p) "" then
    Some ("Partition " +:+ Partition.Name p +:+ " missing start")
  else if String.eqb (Partition.End_ p) "" then
    Some ("Partition " +:+ Partition.Name p +:+ " missing end")
  else if String.eqb (Partition.FS p) "" then
    Some ("Partition " +:+ Partition.Name p +:+ " missing fs type")
  else None.

(** The first loop of [Verify] on the partitions still to visit, with
    the counter at [num]: the partitions afterwards and the error. *)
Fixpoint number_from (num : Z) (todo : list Partition.t)
    : list Partition.t * error :=
  match todo with
  | [] => ([], None)
  | p :: rest =>
      let p' := Partition.set_number num p in
      match Verify_partition_error p' with
      | Some e => (p' :: rest, Some e)
      | None =>
          let r := number_from (int_wrap (num + 1)) rest in
          (p' :: fst r, snd r)
      end
  end.

(** What the second loop of [Verify] does to one mountpoint. *)
Definition Verify_bind (ps : list Partition.t) (m : Mountpoint.t)
    : Mountpoint.t :=
  match Verify_scan (Mountpoint.Partition m) ps 0 with
  | Some k => Mountpoint.set_part (Some k) m
  | None => m
  end.

(** The second loop of [Verify] on the mountpoints still to visit: the
    mountpoints afterwards and the error. *)
Fixpoint resolve_from (ps : list Partition.t) (todo : list Mountpoint.t)
    : list Mountpoint.t * error :=
  match todo with
  | [] => ([], None)
  | m :: rest =>
      let m' := Verify_bind ps m in
      match Mountpoint.part m' with
      | None =>
          (m' :: rest,
           Some ("Couldn't fount partition for " +:+ Mountpoint.Mountpoint m'))
      | Some _ =>
          let r := resolve_from ps rest in
          (m' :: fst r, snd r)
      end
  end.

(** The partition has the four fields [Verify] asks for. *)
Definition complete (p : Partition.t) : Prop :=
  Partition.Name p <> "" /\ Partition.Start p <> "" /\
  Partition.End_ p <> "" /\ Partition.FS p <> "".

(** No partition of [ps] has the name the mountpoint refers to. *)
Definition unmatched (ps : list Partition.t) (m : Mountpoint.t) : Prop :=
  forall p, In p ps -> Partition.Name p <> Mountpoint.Partition m.

(** Two partitions that differ at most in their UUID. *)
Definition same_but_UUID (p q : Partition.t) : Prop :=
  Partition.set_FSUUID "" p = Partition.set_FSUUID "" q.

(** Two actions that differ at most in the UUIDs of their partitions. *)
Definition same_but_UUIDs (a b : ImagePartitionAction.t) : Prop :=
  ImagePartitionAction.set_Partitions [] a = ImagePartitionAction.set_Partitions [] b /\
  Forall2 same_but_UUID (ImagePartitionAction.Partitions a)
                        (ImagePartitionAction.Partitions b).

(** Some partition of [ps] has the name the mountpoint refers to. *)
Definition matched (ps : list Partition.t) (m : Mountpoint.t) : Prop :=
  exists p, In p ps /\ Partition.Name p = Mountpoint.Partition m.

(** The partitions with the ordinals 1, 2, ... *)
Definition numbered (ps : list Partition.t) : list Partition.t :=
  imap (fun k p => Partition.set_number (Z.of_nat k + 1) p) ps.

(** The type [Run] mounts a partition with. *)
Definition mount_fstype (p : Partition.t) : string :=
  if String.eqb (Partition.FS p) "fat32" then "vfat" else Partition.FS p.

(** The calls of [Run] for one partition on the device [image] of the
    context: creation, flags, mkfs, UUID probe. *)
Definition Run_partition_calls (i : ImagePartitionAction.t)
    (context0 : DebosContext.t) (p : Partition.t) : list Call :=
  match getPartitionDevice i (Partition.number p) context0 with
  | Ok dev =>
      [CommandRun "parted"
         ["parted"; "-a"; "none"; "-s"; DebosContext.image context0; "mkpart";
          if String.eqb (ImagePartitionAction.PartitionType i) "gpt"
          then Partition.Name p else "primary";
          Partition.FS p; Partition.Start p; Partition.End_ p]]
      ++ map (fun flag =>
                CommandRun "parted"
                  ["parted"; "-s"; DebosContext.image context0; "set";
                   fmt_d (Partition.number p); flag; "on"])
             (Partition.Flags p)
      ++ [CommandRun ("Formatting partition " +:+ fmt_d (Partition.number p))
                     (formatPartition_cmdline p dev);
          ExecOutput "blkid"
            ["-o"; "value"; "-s"; "UUID"; "-p"; "-c"; "none"; dev]]
  | Panicked _ => []
  end.

(** The calls of [Run] for one mountpoint: directory, then mount. *)
Definition Run_mount_calls (i : ImagePartitionAction.t)
    (context0 : DebosContext.t) (ps : list Partition.t) (m : Mountpoint.t)
    : list Call :=
  match bound_partition ps m with
  | Some p =>
      match getPartitionDevice i (Partition.number p) context0 with
      | Ok dev =>
          [MkdirAll (path_Join [DebosContext.imageMntDir context0;
                                Mountpoint.Mountpoint m]) 755;
           Mount dev
                 (path_Join [DebosContext.imageMntDir context0;
                             Mountpoint.Mountpoint m])
                 (mount_fstype p)]
      | Panicked _ => []
      end
  | None => []
  end.

(** The targets of the mounts, and of the unmounts, among some calls. *)
Definition mount_targets (calls : list Call) : list string :=
  omap (fun c => match c with Mount _ target _ => Some target | _ => None end)
       calls.

Definition unmount_targets (calls : list Call) : list string :=
  omap (fun c => match c with Unmount target => Some target | _ => None end)
       calls.

(** ** Properties *)

(** *** Reasoning about the monad *)

Lemma bind_Ok {A B : Type} (m : M A) (k : A -> M B) (w w' : World) (a : A) :
  m w = Ok (a, w') -> bind m k w = k a w'.
Proof. intros Hm. unfold bind. now rewrite Hm. Qed.

Lemma bind_Panicked {A B : Type} (m : M A) (k : A -> M B) (w : World) (p : Panic) :
  m w = Panicked p -> bind m k w = Panicked p.
Proof. intros Hm. unfold bind. now rewrite Hm. Qed.

Lemma load_partition_Some (idx : nat) (w : World) (p : Partition.t) :
  ImagePartitionAction.Partitions (self w) !! idx = Some p ->
  load_partition idx w = Ok (p, w).
Proof.
  intros Hp. unfold load_partition, bind, get_self, lift, index.
  now rewrite Hp.
Qed.

(** *** Bytes and digits *)

Lemma is_digit_decimal (c : ascii) :
  is_digit c = existsb (Ascii.eqb c) decimal_digits.
Proof. destruct c as [[] [] [] [] [] [] [] []]; reflexivity. Qed.

Lemma append_String (a : ascii) (s t : string) :
  String a s +:+ t = String a (s +:+ t).
Proof. reflexivity. Qed.

Lemma append_empty_l (t : string) : EmptyString +:+ t = t.
Proof. reflexivity. Qed.

Lemma last_byte_app (s : string) (c : ascii) :
  last_byte (s +:+ String c EmptyString) = Some c.
Proof.
  induction s as [|a s IH]; [reflexivity|].
  rewrite append_String. cbn [last_byte]. rewrite IH.
  destruct s; reflexivity.
Qed.

Lemma last_byte_None (s : string) : last_byte s = None <-> s = EmptyString.
Proof.
  split; [|now intros ->].
  induction s as [|a s IH]; [reflexivity|].
  cbn [last_byte]. destruct s as [|b s]; [discriminate|].
  intros H. specialize (IH H). discriminate.
Qed.

(** *** Device paths *)

Lemma getPartitionDevice_empty (i : ImagePartitionAction.t) (number : Z)
    (context : DebosContext.t) :
  DebosContext.image context = "" ->
  getPartitionDevice i number context = Panicked IndexOutOfRange.
Proof. intros H. unfold getPartitionDevice. now rewrite H. Qed.

Lemma getPartitionDevice_nonempty (i : ImagePartitionAction.t) (number : Z)
    (context : DebosContext.t) :
  DebosContext.image context <> "" ->
  exists dev, getPartitionDevice i number context = Ok dev.
Proof.
  intros H. unfold getPartitionDevice.
  destruct (last_byte (DebosContext.image context)) as [last|] eqn:E.
  - destruct (is_digit last); eauto.
  - apply last_byte_None in E. contradiction.
Qed.

(** C5. For a backing device path with a last character and any ordinal
    [number], the partition device is the path followed by "p" and the
    decimal ordinal when that character is a decimal digit, and the path
    followed by the decimal ordinal otherwise. *)
Theorem getPartitionDevice_suffix (i : ImagePartitionAction.t) (number : Z)
    (context : DebosContext.t) (front : string) (last : ascii) :
  DebosContext.image context = front +:+ String last "" ->
  getPartitionDevice i number context =
    Ok (if existsb (Ascii.eqb last) decimal_digits
        then DebosContext.image context +:+ "p" +:+ fmt_d number
        else DebosContext.image context +:+ fmt_d number).
Proof.
  intros H. unfold getPartitionDevice.
  rewrite H at 1. rewrite last_byte_app, is_digit_decimal.
  now destruct (existsb (Ascii.eqb last) decimal_digits).
Qed.

(** C10. [getPartitionDevice] returns a path exactly when the backing
    device path of the context is not empty; on the empty path the index
    of the last byte is out of range, and so are the callers that reach
    it: [formatPartition] and the mount loop of [Run]. *)
Theorem getPartitionDevice_needs_device (i : ImagePartitionAction.t)
    (context0 : DebosContext.t) :
  (forall number,
     (exists dev, getPartitionDevice i number context0 = Ok dev)
     <-> DebosContext.image context0 <> "") /\
  (DebosContext.image context0 = "" ->
   (forall number,
      getPartitionDevice i number context0 = Panicked IndexOutOfRange) /\
   (forall p p_ w,
      ImagePartitionAction.Partitions (self w) !! p = Some p_ ->
      formatPartition i p context0 w = Panicked IndexOutOfRange) /\
   (forall m ms k p_ w,
      context w = context0 ->
      Mountpoint.part m = Some k ->
      ImagePartitionAction.Partitions (self w) !! k = Some p_ ->
      Run_mounts i (m :: ms) w = Panicked IndexOutOfRange)).
Proof.
  split.
  - intros number. split.
    + intros [dev Hdev] Himg.
      rewrite (getPartitionDevice_empty _ _ _ Himg) in Hdev. discriminate.
    + apply getPartitionDevice_nonempty.
  - intros Himg. split; [|split].
    + intros number. now apply getPartitionDevice_empty.
    + intros p p_ w Hp. unfold formatPartition.
      rewrite (bind_Ok _ _ _ _ _ (load_partition_Some _ _ _ Hp)).
      apply bind_Panicked. unfold lift.
      now rewrite getPartitionDevice_empty.
    + intros m ms k p_ w Hctx Hk Hp. cbn [Run_mounts].
      assert (Hd : deref_part m w = Ok (p_, w)).
      { unfold deref_part. rewrite Hk. now apply load_partition_Some. }
      rewrite (bind_Ok _ _ _ _ _ Hd).
      unfold bind at 1. unfold get_context. rewrite Hctx.
      apply bind_Panicked. unfold lift.
      now rewrite getPartitionDevice_empty.
Qed.

(** *** Cleanup *)

Lemma Cleanup_unmounts_trace (i : ImagePartitionAction.t)
    (context0 : DebosContext.t) (n : nat) (w : World) :
  n <= length (ImagePartitionAction.Mountpoints i) ->
  Cleanup_unmounts i context0 n w =
    Ok (tt, mkWorld (self w) (context w)
              (trace w ++ map (Cleanup_unmount context0)
                              (rev (take n (ImagePartitionAction.Mountpoints i))))).
Proof.
  revert w. induction n as [|n IH]; intros w Hn.
  - cbn. rewrite app_nil_r. now destruct w.
  - cbn [Cleanup_unmounts].
    destruct (lookup_lt_is_Some_2 (ImagePartitionAction.Mountpoints i) n)
      as [m Hm]; [lia|].
    unfold bind at 1. unfold lift, index. rewrite Hm.
    unfold bind at 1. unfold call.
    rewrite IH by lia. cbn [emit self context trace].
    rewrite (take_S_r _ _ _ Hm), rev_app_distr. cbn [rev app map].
    now rewrite <- app_assoc.
Qed.

(** [Cleanup] in closed form. *)
Lemma Cleanup_closed (i : ImagePartitionAction.t)
    (context0 : DebosContext.t) (w : World) :
  Cleanup i context0 w =
    Ok (None,
        mkWorld (self w) (context w)
          (trace w
           ++ map (Cleanup_unmount context0)
                  (rev (ImagePartitionAction.Mountpoints i))
           ++ (if ImagePartitionAction.usingLoop i
               then [ExecRun "losetup" ["-d"; DebosContext.image context0]]
               else []))).
Proof.
  unfold Cleanup.
  rewrite (bind_Ok _ _ _ _ _ (Cleanup_unmounts_trace i context0 _ w (le_n _))).
  rewrite firstn_all.
  destruct (ImagePartitionAction.usingLoop i); cbn.
  - unfold ret, emit. cbn [self context trace]. now rewrite <- app_assoc.
  - unfold ret. now rewrite app_nil_r.
Qed.

(** C3. Whatever the environment answers to any unmount, [Cleanup]
    returns no error and its calls are: one unmount per mountpoint, in
    the reverse of the declared order, and then the calls [after], which
    are the detach of the loop device if the action it was called on
    says so, and nothing otherwise. *)
Theorem Cleanup_unmounts_in_reverse (i : ImagePartitionAction.t)
    (context0 : DebosContext.t) (w : World) :
  exists w' after,
    Cleanup i context0 w = Ok (None, w') /\
    trace w' =
      trace w
      ++ map (fun m => Unmount (path_Join [DebosContext.imageMntDir context0;
                                           Mountpoint.Mountpoint m]))
             (rev (ImagePartitionAction.Mountpoints i))
      ++ after /\
    after = (if ImagePartitionAction.usingLoop i
             then [ExecRun "losetup" ["-d"; DebosContext.image context0]]
             else []).
Proof.
  eexists. eexists. split; [apply Cleanup_closed|].
  split; reflexivity.
Qed.

(** *** Host provisioning and the loop device *)

Lemma PreNoMachine_self (i : ImagePartitionAction.t) (w w' : World) (err : error) :
  PreNoMachine i w = Ok (err, w') -> self w' = self w.
Proof.
  unfold PreNoMachine, bind, call, ret, get_context, put_context, emit.
  repeat match goal with
         | |- context [match rerr ?r with _ => _ end] => destruct (rerr r)
         end;
    intros [= _ <-]; reflexivity.
Qed.

Lemma Cleanup_unmount_not_detach (context0 : DebosContext.t)
    (ms : list Mountpoint.t) (name : string) (args : list string) :
  ~ In (ExecRun name args) (map (Cleanup_unmount context0) ms).
Proof.
  intros H. apply in_map_iff in H as (m & Hm & _). discriminate.
Qed.

(** C1, as the code has it. [PreNoMachine] has a value receiver, so its
    assignment [i.usingLoop = true] never reaches the action the engine
    holds: after a successful host provisioning of an action whose flag
    is at its zero value, the flag is still unset, and the calls of
    [Cleanup] on that action are the unmounts only; the detach of the
    loop device, [losetup -d], is not among them. *)
Theorem PreNoMachine_does_not_arm_Cleanup (w w1 : World) :
  ImagePartitionAction.usingLoop (self w) = false ->
  PreNoMachine (self w) w = Ok (None, w1) ->
  ImagePartitionAction.usingLoop (self w1) = false /\
  (exists w2 calls,
     Cleanup (self w1) (context w1) w1 = Ok (None, w2) /\
     trace w2 = trace w1 ++ calls /\
     calls = map (Cleanup_unmount (context w1))
                 (rev (ImagePartitionAction.Mountpoints (self w1))) /\
     ~ In (ExecRun "losetup" ["-d"; DebosContext.image (context w1)]) calls).
Proof.
  intros Hflag Hpre.
  assert (Hself : self w1 = self w) by exact (PreNoMachine_self _ _ _ _ Hpre).
  assert (Hflag1 : ImagePartitionAction.usingLoop (self w1) = false)
    by now rewrite Hself.
  split; [exact Hflag1|].
  eexists. eexists. split; [apply Cleanup_closed|].
  rewrite Hflag1. cbn [trace]. rewrite app_nil_r.
  split; [reflexivity|]. split; [reflexivity|].
  apply Cleanup_unmount_not_detach.
Qed.

(** *** Formatting *)

(** C2, as the code has it. [formatPartition] drops the value
    [Command{}.Run] returns for the mkfs command: when mkfs fails and
    the UUID probe that follows succeeds, [formatPartition] returns no
    error and stores the probed UUID, so [Run] goes on. *)
Theorem formatPartition_drops_mkfs_error (i : ImagePartitionAction.t)
    (p : nat) (p_ : Partition.t) (context0 : DebosContext.t) (w : World)
    (dev failure : string) :
  ImagePartitionAction.Partitions (self w) !! p = Some p_ ->
  getPartitionDevice i (Partition.number p_) context0 = Ok dev ->
  rerr (env (trace w)
            (CommandRun ("Formatting partition " +:+ fmt_d (Partition.number p_))
                        (formatPartition_cmdline p_ dev)))
    = Some failure ->
  rerr (env (trace w ++
               [CommandRun ("Formatting partition " +:+ fmt_d (Partition.number p_))
                           (formatPartition_cmdline p_ dev)])
            (ExecOutput "blkid"
               ["-o"; "value"; "-s"; "UUID"; "-p"; "-c"; "none"; dev]))
    = None ->
  exists w',
    formatPartition i p context0 w = Ok (None, w') /\
    Partition.FSUUID <$> ImagePartitionAction.Partitions (self w') !! p =
      Some (TrimSpace
              (rout (env (trace w ++
                            [CommandRun ("Formatting partition "
                                         +:+ fmt_d (Partition.number p_))
                                        (formatPartition_cmdline p_ dev)])
                         (ExecOutput "blkid"
                            ["-o"; "value"; "-s"; "UUID"; "-p"; "-c"; "none"; dev])))) /\
    trace w' =
      trace w ++
        [CommandRun ("Formatting partition " +:+ fmt_d (Partition.number p_))
                    (formatPartition_cmdline p_ dev);
         ExecOutput "blkid"
           ["-o"; "value"; "-s"; "UUID"; "-p"; "-c"; "none"; dev]].
Proof.
  intros Hp Hdev _ Hblkid. unfold formatPartition.
  rewrite (bind_Ok _ _ _ _ _ (load_partition_Some _ _ _ Hp)).
  unfold bind at 1. unfold lift. rewrite Hdev.
  unfold bind at 1. unfold call at 1.
  unfold bind at 1. unfold call at 1. cbn [emit trace self context].
  rewrite Hblkid.
  unfold bind at 1.
  rewrite (load_partition_Some p _ p_) by exact Hp.
  unfold bind, store_partition, get_self, put_self, ret.
  cbn [self context trace].
  eexists. split; [reflexivity|]. cbn [self context trace ImagePartitionAction.Partitions
    ImagePartitionAction.set_Partitions].
  split.
  - rewrite list_lookup_insert_eq by (eapply lookup_lt_Some; eauto).
    reflexivity.
  - unfold emit. cbn [trace]. now rewrite <- app_assoc.
Qed.

(** *** Generated artifacts *)

Lemma append_nil_r (s : string) : s +:+ "" = s.
Proof.
  induction s as [|a s IH]; [reflexivity|].
  now rewrite append_String, IH.
Qed.

Lemma append_assoc (s t u : string) : (s +:+ t) +:+ u = s +:+ t +:+ u.
Proof.
  induction s as [|a s IH]; [reflexivity|].
  now rewrite !append_String, IH.
Qed.

Lemma deref_part_bound (m : Mountpoint.t) (w : World) (p : Partition.t) :
  bound_partition (ImagePartitionAction.Partitions (self w)) m = Some p ->
  deref_part m w = Ok (p, w).
Proof.
  unfold bound_partition, deref_part.
  destruct (Mountpoint.part m) as [k|]; [|discriminate].
  apply load_partition_Some.
Qed.

Lemma eqb_empty_false (s : string) : s <> "" -> String.eqb s "" = false.
Proof. apply String.eqb_neq. Qed.

Lemma generateFSTab_loop_ok (ms : list Mountpoint.t) (w : World) :
  Forall (has_UUID (ImagePartitionAction.Partitions (self w))) ms ->
  generateFSTab_loop ms w =
    Ok (None,
        mkWorld (self w)
          (DebosContext.set_imageFSTab
             (DebosContext.imageFSTab (context w)
              +:+ fstab_of (ImagePartitionAction.Partitions (self w)) ms)
             (context w))
          (trace w)).
Proof.
  revert w. induction ms as [|m rest IH]; intros w Hms.
  - cbn. rewrite append_nil_r. now destruct w as [? [] ?].
  - apply Forall_cons in Hms as [(p & Hp & Hu) Hrest].
    cbn [generateFSTab_loop fstab_of]. rewrite Hp.
    rewrite (bind_Ok _ _ _ _ _ (deref_part_bound _ _ _ Hp)).
    rewrite (eqb_empty_false _ Hu).
    unfold bind at 1. unfold get_context.
    unfold bind at 1. unfold put_context.
    rewrite IH by exact Hrest.
    cbn [self context trace DebosContext.imageFSTab DebosContext.set_imageFSTab
         DebosContext.scratchdir DebosContext.image DebosContext.imageMntDir
         DebosContext.imageKernelRoot].
    change (["defaults"] ++ Mountpoint.Options m)
      with ("defaults" :: Mountpoint.Options m).
    fold (fstab_line p m). now rewrite append_assoc.
Qed.

Lemma generateFSTab_ok (i : ImagePartitionAction.t) (w : World) :
  Forall (has_UUID (ImagePartitionAction.Partitions (self w)))
         (ImagePartitionAction.Mountpoints i) ->
  generateFSTab i w =
    Ok (None,
        mkWorld (self w)
          (DebosContext.set_imageFSTab
             (fstab_of (ImagePartitionAction.Partitions (self w))
                       (ImagePartitionAction.Mountpoints i))
             (context w))
          (trace w)).
Proof.
  intros Hms. unfold generateFSTab.
  unfold bind at 1. unfold get_context.
  unfold bind at 1. unfold put_context.
  rewrite generateFSTab_loop_ok by exact Hms.
  cbn [self context trace DebosContext.imageFSTab DebosContext.set_imageFSTab
       DebosContext.scratchdir DebosContext.image DebosContext.imageMntDir
       DebosContext.imageKernelRoot].
  now rewrite append_empty_l.
Qed.

(** C7. On a model whose mountpoints are all bound to partitions with a
    non-empty UUID, [generateFSTab] succeeds, a second call succeeds and
    leaves the world as the first call left it, and the buffer holds one
    line per mountpoint and nothing else, whatever it held before. *)
Theorem generateFSTab_idempotent (i : ImagePartitionAction.t) (w : World) :
  Forall (has_UUID (ImagePartitionAction.Partitions (self w)))
         (ImagePartitionAction.Mountpoints i) ->
  exists w1,
    generateFSTab i w = Ok (None, w1) /\
    generateFSTab i w1 = Ok (None, w1) /\
    DebosContext.imageFSTab (context w1) =
      fstab_of (ImagePartitionAction.Partitions (self w))
               (ImagePartitionAction.Mountpoints i).
Proof.
  intros Hms. eexists. split; [now apply generateFSTab_ok|].
  split; [|reflexivity].
  rewrite generateFSTab_ok by exact Hms. reflexivity.
Qed.

Lemma eqb_root_false (m : Mountpoint.t) :
  not_root m -> String.eqb (Mountpoint.Mountpoint m) "/" = false.
Proof. apply String.eqb_neq. Qed.

Lemma generateKernelRoot_loop_no_root (ms : list Mountpoint.t) (w : World) :
  Forall not_root ms -> generateKernelRoot_loop ms w = Ok (None, w).
Proof.
  induction 1 as [|m rest Hm _ IH]; [reflexivity|].
  cbn [generateKernelRoot_loop]. now rewrite (eqb_root_false _ Hm).
Qed.

(** The loop stops at the first mountpoint on the root path. *)
Lemma generateKernelRoot_loop_first_root (before after : list Mountpoint.t)
    (m : Mountpoint.t) (p : Partition.t) (w : World) :
  Forall not_root before ->
  Mountpoint.Mountpoint m = "/" ->
  bound_partition (ImagePartitionAction.Partitions (self w)) m = Some p ->
  generateKernelRoot_loop (before ++ m :: after) w =
    if String.eqb (Partition.FSUUID p) "" then
      Ok (Some "No fs UUID for root partition !?!", w)
    else
      Ok (None,
          mkWorld (self w)
            (DebosContext.set_imageKernelRoot
               ("root=UUID=" +:+ Partition.FSUUID p) (context w))
            (trace w)).
Proof.
  intros Hbefore Hm Hp.
  induction Hbefore as [|m' rest Hm' _ IH].
  - cbn [app generateKernelRoot_loop]. rewrite Hm, String.eqb_refl.
    rewrite (bind_Ok _ _ _ _ _ (deref_part_bound _ _ _ Hp)).
    now destruct (String.eqb (Partition.FSUUID p) "").
  - cbn [app generateKernelRoot_loop]. now rewrite (eqb_root_false _ Hm').
Qed.


Lemma generateFSTab_loop_missing (ms : list Mountpoint.t) (w : World) :
  Forall (fun m => is_Some (bound_partition (ImagePartitionAction.Partitions (self w)) m)) ms ->
  (exists m p,
     In m ms /\
     bound_partition (ImagePartitionAction.Partitions (self w)) m = Some p /\
     Partition.FSUUID p = "") ->
  exists m p w',
    In m ms /\
    bound_partition (ImagePartitionAction.Partitions (self w)) m = Some p /\
    Partition.FSUUID p = "" /\
    generateFSTab_loop ms w =
      Ok (Some ("Missing fs UUID for partition " +:+ Partition.Name p +:+ "!?!"), w').
Proof.
  revert w. induction ms as [|m rest IH]; intros w Hres (m0 & p0 & Hin & Hp0 & Hu0).
  - destruct Hin.
  - apply Forall_cons in Hres as [[p Hp] Hrest].
    cbn [generateFSTab_loop].
    rewrite (bind_Ok _ _ _ _ _ (deref_part_bound _ _ _ Hp)).
    destruct (String.eqb_spec (Partition.FSUUID p) "") as [Hu|Hu].
    + exists m, p, w. repeat split; auto. now left.
    + assert (Hin' : In m0 rest).
      { destruct Hin as [->|Hin]; [|exact Hin]. congruence. }
      unfold bind at 1. unfold get_context.
      unfold bind at 1. unfold put_context.
      match goal with
      | |- context [generateFSTab_loop rest ?w1] =>
          destruct (IH w1 Hrest (ex_intro _ m0 (ex_intro _ p0 (conj Hin' (conj Hp0 Hu0)))))
            as (m1 & p1 & w' & Hin1 & Hp1 & Hu1 & Hrun)
      end.
      exists m1, p1, w'. repeat split; auto. now right.
Qed.

(** C9. On a model whose mountpoints are all bound. [generateFSTab]
    returns an error when some mountpoint is bound to a partition with
    an empty UUID, and the error names such a partition.
    [generateKernelRoot] returns an error when the first mountpoint on
    the root path is bound to a partition with an empty UUID; so, when
    at most one mountpoint is on the root path, it returns an error
    when a mountpoint on the root path is bound to a partition with an
    empty UUID. Both return no error when every mountpoint is bound to
    a partition with a non-empty UUID. *)
Theorem generators_need_UUIDs (i : ImagePartitionAction.t) (w : World) :
  Forall (fun m => is_Some (bound_partition
                              (ImagePartitionAction.Partitions (self w)) m))
         (ImagePartitionAction.Mountpoints i) ->
  ((exists m p,
      In m (ImagePartitionAction.Mountpoints i) /\
      bound_partition (ImagePartitionAction.Partitions (self w)) m = Some p /\
      Partition.FSUUID p = "") ->
   exists m p w',
     In m (ImagePartitionAction.Mountpoints i) /\
     bound_partition (ImagePartitionAction.Partitions (self w)) m = Some p /\
     Partition.FSUUID p = "" /\
     generateFSTab i w =
       Ok (Some ("Missing fs UUID for partition " +:+ Partition.Name p +:+ "!?!"),
           w')) /\
  (forall before m after p,
     ImagePartitionAction.Mountpoints i = before ++ m :: after ->
     Forall not_root before ->
     Mountpoint.Mountpoint m = "/" ->
     bound_partition (ImagePartitionAction.Partitions (self w)) m = Some p ->
     Partition.FSUUID p = "" ->
     generateKernelRoot i w = Ok (Some "No fs UUID for root partition !?!", w)) /\
  ((forall j k mj mk,
      ImagePartitionAction.Mountpoints i !! j = Some mj ->
      ImagePartitionAction.Mountpoints i !! k = Some mk ->
      Mountpoint.Mountpoint mj = "/" ->
      Mountpoint.Mountpoint mk = "/" ->
      j = k) ->
   forall m p,
     In m (ImagePartitionAction.Mountpoints i) ->
     Mountpoint.Mountpoint m = "/" ->
     bound_partition (ImagePartitionAction.Partitions (self w)) m = Some p ->
     Partition.FSUUID p = "" ->
     generateKernelRoot i w = Ok (Some "No fs UUID for root partition !?!", w)) /\
  (Forall (has_UUID (ImagePartitionAction.Partitions (self w)))
          (ImagePartitionAction.Mountpoints i) ->
   (exists w', generateFSTab i w = Ok (None, w')) /\
   (exists w', generateKernelRoot i w = Ok (None, w'))).
Proof.
  intros Hres.
  assert (Hfirst : forall before m after p,
            ImagePartitionAction.Mountpoints i = before ++ m :: after ->
            Forall not_root before ->
            Mountpoint.Mountpoint m = "/" ->
            bound_partition (ImagePartitionAction.Partitions (self w)) m = Some p ->
            Partition.FSUUID p = "" ->
            generateKernelRoot i w =
              Ok (Some "No fs UUID for root partition !?!", w)).
  { intros before m after p Hms Hbefore Hm Hp Hu. unfold generateKernelRoot.
    rewrite Hms, (generateKernelRoot_loop_first_root _ _ _ _ _ Hbefore Hm Hp).
    now rewrite Hu. }
  split; [|split; [exact Hfirst|split]].
  - intros Hmissing. unfold generateFSTab.
    unfold bind at 1. unfold get_context.
    unfold bind at 1. unfold put_context.
    match goal with
    | |- context [generateFSTab_loop _ ?w1] =>
        destruct (generateFSTab_loop_missing _ w1 Hres Hmissing)
          as (m & p & w' & Hin & Hp & Hu & Hrun)
    end.
    rewrite Hrun. exists m, p, w'. auto.
  - intros Hunique m p Hin Hm Hp Hu.
    destruct (in_split _ _ Hin) as (before & after & Hms).
    apply (Hfirst before m after p Hms); [|exact Hm|exact Hp|exact Hu].
    apply Forall_lookup_2. intros j mj Hj Hroot.
    pose proof (lookup_lt_Some _ _ _ Hj) as Hlt.
    assert (Hjk : j = length before).
    { apply (Hunique j (length before) mj m); [| |exact Hroot|exact Hm].
      - rewrite Hms. now rewrite lookup_app_l.
      - rewrite Hms. now apply list_lookup_middle. }
    lia.
  - intros Hall. clear Hfirst. split.
    + eexists. now apply generateFSTab_ok.
    + unfold generateKernelRoot.
      induction Hall as [|m rest (p & Hp & Hu) _ IH].
      * eexists. reflexivity.
      * apply Forall_cons in Hres as [_ Hres].
        cbn [generateKernelRoot_loop].
        destruct (String.eqb (Mountpoint.Mountpoint m) "/"); [|now apply IH].
        rewrite (bind_Ok _ _ _ _ _ (deref_part_bound _ _ _ Hp)).
        rewrite (eqb_empty_false _ Hu). eexists. reflexivity.
Qed.

(** *** Verify *)

Lemma World_eta (w : World) : mkWorld (self w) (context w) (trace w) = w.
Proof. now destruct w. Qed.

Lemma set_Partitions_same (i : ImagePartitionAction.t) :
  ImagePartitionAction.set_Partitions (ImagePartitionAction.Partitions i) i = i.
Proof. now destruct i. Qed.

Lemma set_Mountpoints_same (i : ImagePartitionAction.t) :
  ImagePartitionAction.set_Mountpoints (ImagePartitionAction.Mountpoints i) i = i.
Proof. now destruct i. Qed.

(** The first loop of [Verify] computes [number_from]. *)
Lemma Verify_partitions_closed (todo done : list Partition.t) (num : Z) (w : World) :
  ImagePartitionAction.Partitions (self w) = done ++ todo ->
  Verify_partitions num (seq (length done) (length todo)) w =
    Ok (snd (number_from num todo),
        mkWorld
          (ImagePartitionAction.set_Partitions
             (done ++ fst (number_from num todo)) (self w))
          (context w) (trace w)).
Proof.
  revert done num w. induction todo as [|p rest IH]; intros done num w Hps.
  - cbn. rewrite <- Hps, set_Partitions_same, World_eta. reflexivity.
  - cbn [length seq Verify_partitions number_from].
    assert (Hp : ImagePartitionAction.Partitions (self w) !! length done = Some p).
    { rewrite Hps. now apply list_lookup_middle. }
    rewrite (bind_Ok _ _ _ _ _ (load_partition_Some _ _ _ Hp)).
    unfold bind at 1. unfold store_partition at 1.
    unfold bind at 1. unfold get_self at 1. unfold put_self at 1.
    set (p' := Partition.set_number num p).
    assert (Hins : <[length done := p']> (ImagePartitionAction.Partitions (self w))
                   = done ++ p' :: rest).
    { rewrite Hps. rewrite <- (Nat.add_0_r (length done)) at 1.
      now rewrite insert_app_r. }
    rewrite Hins.
    set (w1 := mkWorld _ (context w) (trace w)).
    assert (Hp1 : ImagePartitionAction.Partitions (self w1) !! length done = Some p').
    { subst w1. cbn. now apply list_lookup_middle. }
    rewrite (bind_Ok _ _ _ _ _ (load_partition_Some _ _ _ Hp1)).
    unfold Verify_partition_error.
    destruct (String.eqb (Partition.Name p') ""); [reflexivity|].
    destruct (String.eqb (Partition.Start p') ""); [reflexivity|].
    destruct (String.eqb (Partition.End_ p') ""); [reflexivity|].
    destruct (String.eqb (Partition.FS p') ""); [reflexivity|].
    specialize (IH (done ++ [p']) (int_wrap (num + 1)) w1).
    rewrite length_app, Nat.add_1_r in IH. cbn [length] in IH.
    rewrite IH by (subst w1; cbn; now rewrite <- app_assoc).
    subst w1. cbn. now rewrite <- app_assoc.
Qed.

Lemma load_mountpoint_Some (idx : nat) (w : World) (m : Mountpoint.t) :
  ImagePartitionAction.Mountpoints (self w) !! idx = Some m ->
  load_mountpoint idx w = Ok (m, w).
Proof.
  intros Hm. unfold load_mountpoint, bind, get_self, lift, index.
  now rewrite Hm.
Qed.

(** The second loop of [Verify] computes [resolve_from]. *)
Lemma Verify_mountpoints_closed (todo done : list Mountpoint.t) (w : World) :
  ImagePartitionAction.Mountpoints (self w) = done ++ todo ->
  Verify_mountpoints (seq (length done) (length todo)) w =
    Ok (snd (resolve_from (ImagePartitionAction.Partitions (self w)) todo),
        mkWorld
          (ImagePartitionAction.set_Mountpoints
             (done ++ fst (resolve_from (ImagePartitionAction.Partitions (self w)) todo))
             (self w))
          (context w) (trace w)).
Proof.
  revert done w. induction todo as [|m rest IH]; intros done w Hms.
  - cbn. rewrite app_nil_r, <- (app_nil_r done), <- Hms.
    now rewrite set_Mountpoints_same, World_eta.
  - cbn [length seq Verify_mountpoints resolve_from].
    assert (Hm : ImagePartitionAction.Mountpoints (self w) !! length done = Some m).
    { rewrite Hms. now apply list_lookup_middle. }
    rewrite (bind_Ok _ _ _ _ _ (load_mountpoint_Some _ _ _ Hm)).
    unfold bind at 1. unfold get_self at 1.
    set (ps := ImagePartitionAction.Partitions (self w)).
    set (m' := Verify_bind ps m).
    set (w1 := mkWorld
                 (ImagePartitionAction.set_Mountpoints (done ++ m' :: rest) (self w))
                 (context w) (trace w)).
    assert (Hstep :
      (match Verify_scan (Mountpoint.Partition m) ps 0 with
       | Some p => store_mountpoint (length done) (Mountpoint.set_part (Some p) m)
       | None => ret tt
       end) w = Ok (tt, w1)).
    { subst w1 m'. unfold Verify_bind.
      destruct (Verify_scan (Mountpoint.Partition m) ps 0) as [k|].
      - unfold store_mountpoint, bind, get_self, put_self.
        rewrite Hms. rewrite <- (Nat.add_0_r (length done)) at 1.
        now rewrite insert_app_r.
      - unfold ret. rewrite <- Hms, set_Mountpoints_same, World_eta.
        reflexivity. }
    rewrite (bind_Ok _ _ _ _ _ Hstep).
    assert (Hm1 : ImagePartitionAction.Mountpoints (self w1) !! length done = Some m').
    { subst w1. cbn. now apply list_lookup_middle. }
    rewrite (bind_Ok _ _ _ _ _ (load_mountpoint_Some _ _ _ Hm1)).
    destruct (Mountpoint.part m') as [k|]; [|reflexivity].
    specialize (IH (done ++ [m']) w1).
    rewrite length_app, Nat.add_1_r in IH. cbn [length] in IH.
    rewrite IH by (subst w1; cbn; now rewrite <- app_assoc).
    subst w1. cbn. now rewrite <- app_assoc.
Qed.

(** [Verify] in closed form: numbering, then binding, then the size. *)
Lemma Verify_closed (w : World) :
  Verify w =
    let i := self w in
    let r1 := number_from 1 (ImagePartitionAction.Partitions i) in
    let i1 := ImagePartitionAction.set_Partitions (fst r1) i in
    match snd r1 with
    | Some e => Ok (Some e, mkWorld i1 (context w) (trace w))
    | None =>
        let r2 := resolve_from (fst r1) (ImagePartitionAction.Mountpoints i) in
        let i2 := ImagePartitionAction.set_Mountpoints (fst r2) i1 in
        match snd r2 with
        | Some e => Ok (Some e, mkWorld i2 (context w) (trace w))
        | None =>
            match snd (FromHumanSize (ImagePartitionAction.ImageSize i)) with
            | Some _ =>
                Ok (Some ("Failed to parse image size: "
                          +:+ ImagePartitionAction.ImageSize i),
                    mkWorld i2 (context w) (trace w))
            | None =>
                Ok (None,
                    mkWorld
                      (ImagePartitionAction.set_size
                         (fst (FromHumanSize (ImagePartitionAction.ImageSize i))) i2)
                      (context w) (trace w))
            end
        end
    end.
Proof.
  unfold Verify. unfold bind at 1. unfold get_self at 1.
  rewrite (bind_Ok _ _ _ _ _
             (Verify_partitions_closed (ImagePartitionAction.Partitions (self w))
                [] 1 w eq_refl)).
  cbn [app length]. cbn zeta.
  destruct (snd (number_from 1 (ImagePartitionAction.Partitions (self w))));
    [reflexivity|].
  match goal with
  | |- bind (Verify_mountpoints _) _ ?w1 = _ =>
      rewrite (bind_Ok _ _ _ _ _
                 (Verify_mountpoints_closed
                    (ImagePartitionAction.Mountpoints (self w)) [] w1 eq_refl))
  end.
  cbn [app length self context trace ImagePartitionAction.Partitions
       ImagePartitionAction.Mountpoints ImagePartitionAction.set_Partitions].
  destruct (snd (resolve_from _ _)); [reflexivity|].
  unfold bind at 1. unfold get_self at 1.
  cbn [self ImagePartitionAction.ImageSize ImagePartitionAction.set_Mountpoints
       ImagePartitionAction.set_Partitions].
  destruct (FromHumanSize (ImagePartitionAction.ImageSize (self w))) as [sz [e|]];
    reflexivity.
Qed.

Lemma int_wrap_small (n : Z) : (0 <= n <= max_int)%Z -> int_wrap n = n.
Proof.
  unfold int_wrap, max_int, intSize.
  change (2 ^ (64 - 1))%Z with 9223372036854775808%Z.
  change (2 ^ 64)%Z with 18446744073709551616%Z.
  intros H. rewrite Z.mod_small by lia. lia.
Qed.

Lemma number_from_names (num : Z) (todo : list Partition.t) :
  map Partition.Name (fst (number_from num todo)) = map Partition.Name todo.
Proof.
  revert num. induction todo as [|p rest IH]; intros num; [reflexivity|].
  cbn [number_from].
  destruct (Verify_partition_error (Partition.set_number num p)); cbn.
  - reflexivity.
  - now rewrite IH.
Qed.

Lemma number_from_ok (todo : list Partition.t) (num : Z) :
  (0 <= num)%Z ->
  (num + Z.of_nat (length todo) - 1 <= max_int)%Z ->
  snd (number_from num todo) = None ->
  fst (number_from num todo) =
    imap (fun k p => Partition.set_number (num + Z.of_nat k) p) todo.
Proof.
  revert num. induction todo as [|p rest IH]; intros num Hnum Hmax Hok;
    [reflexivity|].
  cbn [number_from] in *.
  destruct (Verify_partition_error (Partition.set_number num p));
    [discriminate|].
  cbn [fst snd imap] in *. rewrite Z.add_0_r. f_equal.
  destruct rest as [|q rest]; [reflexivity|].
  cbn [length] in Hmax.
  rewrite int_wrap_small in * by lia.
  rewrite IH; [|lia|cbn [length]; lia|exact Hok].
  apply imap_ext. intros k x _. cbn. f_equal. lia.
Qed.

Lemma Verify_partition_error_complete (num : Z) (p : Partition.t) :
  complete p -> Verify_partition_error (Partition.set_number num p) = None.
Proof.
  intros (Hn & Hs & He & Hf). unfold Verify_partition_error. cbn.
  now rewrite !eqb_empty_false.
Qed.

Lemma number_from_complete (todo : list Partition.t) (num : Z) :
  Forall complete todo -> snd (number_from num todo) = None.
Proof.
  intros H. revert num. induction H as [|p rest Hp _ IH]; intros num;
    [reflexivity|].
  cbn [number_from]. rewrite (Verify_partition_error_complete _ _ Hp).
  apply IH.
Qed.

Lemma Verify_scan_names (name : string) (ps ps' : list Partition.t) (k : nat) :
  map Partition.Name ps = map Partition.Name ps' ->
  Verify_scan name ps k = Verify_scan name ps' k.
Proof.
  revert ps' k. induction ps as [|p ps IH]; intros [|p' ps'] k H;
    try discriminate; [reflexivity|].
  cbn in H. injection H as Hp Hps. cbn [Verify_scan]. rewrite Hp.
  destruct (String.eqb name (Partition.Name p')); [reflexivity|].
  now apply IH.
Qed.

(** The scan stops at the first partition with the name. *)
Lemma Verify_scan_Some (name : string) (ps : list Partition.t) (k0 k : nat) :
  Verify_scan name ps k0 = Some k ->
  exists j p,
    k = k0 + j /\ ps !! j = Some p /\ Partition.Name p = name /\
    forall j' q, j' < j -> ps !! j' = Some q -> Partition.Name q <> name.
Proof.
  revert k0. induction ps as [|p ps IH]; intros k0 H; [discriminate|].
  cbn [Verify_scan] in H.
  destruct (String.eqb_spec name (Partition.Name p)) as [Heq|Hne].
  - injection H as <-. exists 0, p. repeat split; auto; lia.
  - destruct (IH _ H) as (j & q & -> & Hq & Hname & Hfirst).
    exists (S j), q.
    split; [lia|]. split; [exact Hq|]. split; [exact Hname|].
    intros [|j'] q' Hlt Hq'.
    + cbn in Hq'. injection Hq' as <-. congruence.
    + cbn in Hq'. apply (Hfirst j'); [lia|exact Hq'].
Qed.

Lemma Verify_scan_None (name : string) (ps : list Partition.t) (k0 : nat) :
  Verify_scan name ps k0 = None <->
  forall p, In p ps -> Partition.Name p <> name.
Proof.
  revert k0. induction ps as [|p ps IH]; intros k0; cbn [Verify_scan].
  - split; [intros _ p []|reflexivity].
  - destruct (String.eqb_spec name (Partition.Name p)) as [Heq|Hne].
    + split; [discriminate|]. intros H. exfalso.
      apply (H p); [now left|congruence].
    + rewrite IH. split.
      * intros H q [<-|Hq]; [congruence|now apply H].
      * intros H q Hq. apply H. now right.
Qed.

Lemma resolve_from_names (ps ps' : list Partition.t) (todo : list Mountpoint.t) :
  map Partition.Name ps = map Partition.Name ps' ->
  resolve_from ps todo = resolve_from ps' todo.
Proof.
  intros H. induction todo as [|m rest IH]; [reflexivity|].
  cbn [resolve_from]. unfold Verify_bind.
  rewrite (Verify_scan_names _ _ _ _ H). now rewrite IH.
Qed.

Lemma resolve_from_ok (ps : list Partition.t) (todo : list Mountpoint.t) :
  Forall (fun m => Mountpoint.part m = None) todo ->
  snd (resolve_from ps todo) = None ->
  fst (resolve_from ps todo) = map (Verify_bind ps) todo /\
  Forall (fun m => is_Some (Verify_scan (Mountpoint.Partition m) ps 0)) todo.
Proof.
  induction 1 as [|m rest Hm _ IH]; intros Hok; [now split|].
  cbn [resolve_from] in *. unfold Verify_bind in *.
  destruct (Verify_scan (Mountpoint.Partition m) ps 0) as [k|] eqn:Hscan.
  - cbn in *. destruct (IH Hok) as [-> Hall]. rewrite Hscan.
    split; [reflexivity|]. constructor; [rewrite Hscan; eauto|exact Hall].
  - rewrite Hm in Hok. discriminate.
Qed.

Lemma resolve_from_unmatched (ps : list Partition.t) (todo : list Mountpoint.t) :
  Forall (fun m => Mountpoint.part m = None) todo ->
  (exists m, In m todo /\ unmatched ps m) ->
  exists m,
    In m todo /\ unmatched ps m /\
    snd (resolve_from ps todo) =
      Some ("Couldn't fount partition for " +:+ Mountpoint.Mountpoint m).
Proof.
  induction 1 as [|m rest Hm _ IH]; intros (m0 & Hin & Hun); [destruct Hin|].
  cbn [resolve_from]. unfold Verify_bind.
  destruct (Verify_scan (Mountpoint.Partition m) ps 0) as [k|] eqn:Hscan.
  - cbn. destruct Hin as [->|Hin].
    + exfalso. pose proof (proj2 (Verify_scan_None _ _ 0) Hun). congruence.
    + destruct (IH (ex_intro _ m0 (conj Hin Hun))) as (m1 & Hin1 & Hun1 & Herr).
      exists m1. split; [now right|]. split; [exact Hun1|exact Herr].
  - rewrite Hm. exists m. split; [now left|]. split; [|reflexivity].
    exact (proj1 (Verify_scan_None _ _ _) Hscan).
Qed.

Lemma Verify_Ok_None (w w' : World) :
  Verify w = Ok (None, w') ->
  snd (number_from 1 (ImagePartitionAction.Partitions (self w))) = None /\
  snd (resolve_from (fst (number_from 1 (ImagePartitionAction.Partitions (self w))))
         (ImagePartitionAction.Mountpoints (self w))) = None /\
  ImagePartitionAction.Partitions (self w') =
    fst (number_from 1 (ImagePartitionAction.Partitions (self w))) /\
  ImagePartitionAction.Mountpoints (self w') =
    fst (resolve_from (fst (number_from 1 (ImagePartitionAction.Partitions (self w))))
           (ImagePartitionAction.Mountpoints (self w))).
Proof.
  rewrite Verify_closed. cbn zeta.
  destruct (snd (number_from 1 _)); [discriminate|].
  destruct (snd (resolve_from _ _)); [discriminate|].
  destruct (snd (FromHumanSize _)); [discriminate|].
  intros [= <-]. auto.
Qed.

(** C4. When [Verify] succeeds on a list of partitions (no longer than
    the largest [int]), the partitions afterwards are the declared ones,
    in the declared order, each changed only in its ordinal, and the
    ordinals are 1, 2, ..., N. *)
Theorem Verify_numbers_partitions (w w' : World) :
  (Z.of_nat (length (ImagePartitionAction.Partitions (self w))) <= max_int)%Z ->
  Verify w = Ok (None, w') ->
  ImagePartitionAction.Partitions (self w') =
    imap (fun k p => Partition.set_number (Z.of_nat k + 1) p)
         (ImagePartitionAction.Partitions (self w)) /\
  map Partition.number (ImagePartitionAction.Partitions (self w')) =
    map (fun k => (Z.of_nat k + 1)%Z)
        (seq 0 (length (ImagePartitionAction.Partitions (self w)))).
Proof.
  intros Hlen Hok.
  destruct (Verify_Ok_None _ _ Hok) as (Hnum & _ & Hps & _).
  assert (H : ImagePartitionAction.Partitions (self w') =
              imap (fun k p => Partition.set_number (Z.of_nat k + 1) p)
                   (ImagePartitionAction.Partitions (self w))).
  { rewrite Hps, number_from_ok; [|lia|lia|exact Hnum].
    apply imap_ext. intros k p _. cbn. f_equal. lia. }
  split; [exact H|]. rewrite H.
  apply list_eq. intros k.
  rewrite !list_lookup_fmap, list_lookup_imap.
  destruct (ImagePartitionAction.Partitions (self w) !! k) as [p|] eqn:Hk.
  - rewrite lookup_seq_lt by (eapply lookup_lt_Some; eauto). reflexivity.
  - rewrite lookup_seq_ge by (now apply lookup_ge_None). reflexivity.
Qed.

Lemma lifecycle_stops_at_Verify (how : Provisioning) (w w' : World) (e : string) :
  Verify w = Ok (Some e, w') -> lifecycle how w = Ok (Some e, w').
Proof. intros H. unfold lifecycle. now rewrite (bind_Ok _ _ _ _ _ H). Qed.

(** *** What formatting and [Run] leave alone *)

Lemma bind_inv {A B : Type} (m : M A) (k : A -> M B) (w w' : World) (b : B) :
  bind m k w = Ok (b, w') ->
  exists a w1, m w = Ok (a, w1) /\ k a w1 = Ok (b, w').
Proof.
  unfold bind. destruct (m w) as [[a w1]|]; [eauto|discriminate].
Qed.

Lemma load_partition_inv (idx : nat) (w w' : World) (p : Partition.t) :
  load_partition idx w = Ok (p, w') ->
  w' = w /\ ImagePartitionAction.Partitions (self w) !! idx = Some p.
Proof.
  unfold load_partition, bind, get_self, lift, index.
  destruct (ImagePartitionAction.Partitions (self w) !! idx);
    [|discriminate].
  now intros [= <- <-].
Qed.

Lemma lift_inv {A : Type} (r : Result A) (w w' : World) (a : A) :
  lift r w = Ok (a, w') -> w' = w /\ r = Ok a.
Proof. unfold lift. destruct r; [|discriminate]. now intros [= <- <-]. Qed.

Lemma call_inv (c : Call) (w w' : World) (r : Reply) :
  call c w = Ok (r, w') -> r = env (trace w) c /\ w' = emit c w.
Proof. unfold call. now intros [= <- <-]. Qed.

Lemma ret_inv {A : Type} (a b : A) (w w' : World) :
  ret a w = Ok (b, w') -> b = a /\ w' = w.
Proof. unfold ret. now intros [= <- <-]. Qed.

Lemma get_context_inv (w w' : World) (c : DebosContext.t) :
  get_context w = Ok (c, w') -> c = context w /\ w' = w.
Proof. unfold get_context. now intros [= <- <-]. Qed.

Lemma same_but_UUID_refl (p : Partition.t) : same_but_UUID p p.
Proof. reflexivity. Qed.

Lemma same_but_UUID_set (u : string) (p : Partition.t) :
  same_but_UUID p (Partition.set_FSUUID u p).
Proof. reflexivity. Qed.

Lemma same_but_UUID_fields (p q : Partition.t) :
  same_but_UUID p q ->
  Partition.number p = Partition.number q /\
  Partition.Name p = Partition.Name q /\
  Partition.Start p = Partition.Start q /\
  Partition.End_ p = Partition.End_ q /\
  Partition.FS p = Partition.FS q /\
  Partition.Flags p = Partition.Flags q.
Proof.
  unfold same_but_UUID. destruct p, q. cbn. intros [= -> -> -> -> -> ->].
  repeat split.
Qed.

Lemma same_but_UUIDs_refl (a : ImagePartitionAction.t) : same_but_UUIDs a a.
Proof.
  split; [reflexivity|]. apply Forall2_same_length_lookup.
  split; [reflexivity|]. intros k p q Hp Hq. congruence.
Qed.

Lemma same_but_UUIDs_trans (a b c : ImagePartitionAction.t) :
  same_but_UUIDs a b -> same_but_UUIDs b c -> same_but_UUIDs a c.
Proof.
  intros [Hab Pab] [Hbc Pbc]. split; [congruence|].
  apply Forall2_same_length_lookup in Pab as [Lab Pab].
  apply Forall2_same_length_lookup in Pbc as [Lbc Pbc].
  apply Forall2_same_length_lookup. split; [congruence|].
  intros k p r Hp Hr.
  destruct (lookup_lt_is_Some_2 (ImagePartitionAction.Partitions b) k) as [q Hq].
  { rewrite <- Lab. eapply lookup_lt_Some; eauto. }
  unfold same_but_UUID in *.
  rewrite (Pab k p q Hp Hq). exact (Pbc k q r Hq Hr).
Qed.

Lemma same_but_UUIDs_store (a : ImagePartitionAction.t) (idx : nat)
    (p : Partition.t) (u : string) :
  ImagePartitionAction.Partitions a !! idx = Some p ->
  same_but_UUIDs a
    (ImagePartitionAction.set_Partitions
       (<[idx := Partition.set_FSUUID u p]> (ImagePartitionAction.Partitions a)) a).
Proof.
  intros Hp. split; [reflexivity|].
  cbn [ImagePartitionAction.Partitions ImagePartitionAction.set_Partitions].
  apply Forall2_same_length_lookup. split; [now rewrite length_insert|].
  intros k q q' Hq Hq'.
  destruct (decide (idx = k)) as [->|Hne].
  - rewrite list_lookup_insert_eq in Hq' by (eapply lookup_lt_Some; eauto).
    injection Hq' as <-. assert (q = p) as -> by congruence.
    apply same_but_UUID_set.
  - rewrite list_lookup_insert_ne in Hq' by exact Hne.
    assert (q = q') as -> by congruence. reflexivity.
Qed.

(** What [formatPartition] leaves as it is. *)
Lemma formatPartition_frame (i : ImagePartitionAction.t)
    (p : nat) (context0 : DebosContext.t) (w w' : World) (err : error) :
  formatPartition i p context0 w = Ok (err, w') ->
  context w' = context w /\
  same_but_UUIDs (self w) (self w') /\
  (forall q, q <> p ->
     ImagePartitionAction.Partitions (self w') !! q =
     ImagePartitionAction.Partitions (self w) !! q) /\
  (err <> None -> self w' = self w).
Proof.
  unfold formatPartition. intros H.
  apply bind_inv in H as (p_ & w1 & H1 & H).
  apply load_partition_inv in H1 as [-> Hp].
  apply bind_inv in H as (path & w1 & H1 & H).
  apply lift_inv in H1 as [-> Hdev].
  apply bind_inv in H as (r0 & w1 & H1 & H).
  apply call_inv in H1 as [_ ->].
  apply bind_inv in H as (r & w2 & H1 & H).
  apply call_inv in H1 as [-> ->].
  destruct (rerr _) as [e|].
  - apply ret_inv in H as [-> ->]. cbn [emit self context trace].
    repeat split; auto. apply same_but_UUIDs_refl.
  - apply bind_inv in H as (p2 & w3 & H1 & H).
    apply load_partition_inv in H1 as [-> Hp2].
    cbn [emit self context trace] in Hp2.
    assert (p2 = p_) as -> by congruence.
    unfold bind, store_partition, get_self, put_self, ret in H.
    injection H as <- <-. cbn [emit self context trace].
    split; [reflexivity|]. split; [now apply same_but_UUIDs_store|].
    split; [|congruence].
    intros q Hq. cbn. now rewrite list_lookup_insert_ne by congruence.
Qed.


Lemma formatPartition_calls (i : ImagePartitionAction.t) (p : nat)
    (context0 : DebosContext.t) (w w' : World) (err : error) :
  formatPartition i p context0 w = Ok (err, w') ->
  exists p_ dev,
    ImagePartitionAction.Partitions (self w) !! p = Some p_ /\
    getPartitionDevice i (Partition.number p_) context0 = Ok dev /\
    trace w' =
      trace w ++
        [CommandRun ("Formatting partition " +:+ fmt_d (Partition.number p_))
                    (formatPartition_cmdline p_ dev);
         ExecOutput "blkid"
           ["-o"; "value"; "-s"; "UUID"; "-p"; "-c"; "none"; dev]].
Proof.
  unfold formatPartition. intros H.
  apply bind_inv in H as (p_ & w1 & H1 & H).
  apply load_partition_inv in H1 as [-> Hp].
  apply bind_inv in H as (path & w1 & H1 & H).
  apply lift_inv in H1 as [-> Hdev].
  apply bind_inv in H as (r0 & w1 & H1 & H).
  apply call_inv in H1 as [_ ->].
  apply bind_inv in H as (r & w2 & H1 & H).
  apply call_inv in H1 as [-> ->].
  exists p_, path. split; [exact Hp|]. split; [exact Hdev|].
  destruct (rerr _) as [e|].
  - apply ret_inv in H as [-> ->]. cbn [emit self context trace].
    now rewrite <- app_assoc.
  - apply bind_inv in H as (p2 & w3 & H1 & H).
    apply load_partition_inv in H1 as [-> _].
    unfold bind, store_partition, get_self, put_self, ret in H.
    injection H as <- <-. cbn [emit self context trace].
    now rewrite <- app_assoc.
Qed.

Lemma Run_flags_inv (p : nat) (p_ : Partition.t) (flags : list string)
    (w w' : World) (err : error) :
  ImagePartitionAction.Partitions (self w) !! p = Some p_ ->
  Run_flags p flags w = Ok (err, w') ->
  self w' = self w /\ context w' = context w /\
  (err = None ->
   trace w' =
     trace w ++
       map (fun flag =>
              CommandRun "parted"
                ["parted"; "-s"; DebosContext.image (context w); "set";
                 fmt_d (Partition.number p_); flag; "on"])
           flags).
Proof.
  intros Hp. revert w Hp. induction flags as [|flag rest IH]; intros w Hp H.
  - apply ret_inv in H as [-> ->]. cbn. now rewrite app_nil_r.
  - cbn [Run_flags] in H.
    apply bind_inv in H as (c & w1 & H1 & H).
    apply get_context_inv in H1 as [-> ->].
    apply bind_inv in H as (q & w1 & H1 & H).
    apply load_partition_inv in H1 as [-> Hq].
    assert (q = p_) as -> by congruence.
    apply bind_inv in H as (r & w1 & H1 & H).
    apply call_inv in H1 as [-> ->].
    destruct (rerr _) as [e|].
    + apply ret_inv in H as [-> ->]. cbn [emit self context trace].
      repeat split; auto. discriminate.
    + apply IH in H as (Hs & Hc & Ht); [|exact Hp].
      cbn [emit self context trace] in *.
      repeat split; auto. intros ->. rewrite Ht by reflexivity.
      cbn [map]. now rewrite <- app_assoc.
Qed.

Lemma formatPartition_cmdline_same (p q : Partition.t) (dev : string) :
  same_but_UUID p q ->
  formatPartition_cmdline p dev = formatPartition_cmdline q dev.
Proof.
  intros H. apply same_but_UUID_fields in H as (_ & Hn & _ & _ & Hf & _).
  unfold formatPartition_cmdline. now rewrite Hn, Hf.
Qed.

Lemma Run_partition_calls_same (i : ImagePartitionAction.t)
    (context0 : DebosContext.t) (p q : Partition.t) :
  same_but_UUID p q ->
  Run_partition_calls i context0 p = Run_partition_calls i context0 q.
Proof.
  intros H. pose proof (formatPartition_cmdline_same p q) as Hcmd.
  pose proof (same_but_UUID_fields _ _ H) as (Hnum & Hn & Hs & He & Hf & Hfl).
  unfold Run_partition_calls. rewrite Hnum, Hn, Hs, He, Hf, Hfl.
  destruct (getPartitionDevice i (Partition.number q) context0); [|reflexivity].
  now rewrite (Hcmd _ H).
Qed.

(** The calls of [Run] for the partition at an index, if there is one. *)
Lemma Run_partitions_inv (i : ImagePartitionAction.t) (idxs : list nat)
    (w w' : World) (err : error) :
  Run_partitions i idxs w = Ok (err, w') ->
  context w' = context w /\
  same_but_UUIDs (self w) (self w') /\
  (err = None ->
   trace w' =
     trace w ++
       flat_map (fun idx =>
                   match ImagePartitionAction.Partitions (self w) !! idx with
                   | Some p => Run_partition_calls i (context w) p
                   | None => []
                   end)
                idxs).
Proof.
  revert w. induction idxs as [|idx rest IH]; intros w H.
  - apply ret_inv in H as [-> ->]. cbn. rewrite app_nil_r.
    repeat split; auto. apply same_but_UUIDs_refl.
  - cbn [Run_partitions] in H.
    apply bind_inv in H as (p & w1 & H1 & H).
    apply load_partition_inv in H1 as [-> Hp].
    apply bind_inv in H as (c & w1 & H1 & H).
    apply get_context_inv in H1 as [-> ->].
    apply bind_inv in H as (r & w1 & H1 & H).
    apply call_inv in H1 as [-> ->].
    destruct (rerr _) as [e|].
    { apply ret_inv in H as [-> ->]. cbn [emit self context trace].
      repeat split; auto; [apply same_but_UUIDs_refl|discriminate]. }
    apply bind_inv in H as (err1 & w2 & H1 & H).
    apply (Run_flags_inv idx p) in H1 as (Hs2 & Hc2 & Ht2); [|exact Hp].
    cbn [emit self context trace] in Hs2, Hc2, Ht2.
    destruct err1 as [e|].
    { apply ret_inv in H as [-> ->].
      rewrite Hs2, Hc2. repeat split; auto;
        [apply same_but_UUIDs_refl|discriminate]. }
    specialize (Ht2 eq_refl).
    apply bind_inv in H as (c & w3 & H1 & H).
    apply get_context_inv in H1 as [-> ->].
    apply bind_inv in H as (err2 & w3 & H1 & H).
    pose proof (formatPartition_frame _ _ _ _ _ _ H1)
      as (Hc3 & Hs3 & _ & _).
    apply formatPartition_calls in H1 as (p3 & dev & Hp3 & Hdev & Ht3).
    rewrite Hs2 in Hp3, Hs3. rewrite Hc2 in Hc3, Hdev.
    assert (p3 = p) as -> by congruence.
    destruct err2 as [e|].
    { apply ret_inv in H as [-> ->].
      split; [exact Hc3|]. split; [exact Hs3|discriminate]. }
    apply IH in H as (Hc4 & Hs4 & Ht4).
    split; [congruence|]. split; [eapply same_but_UUIDs_trans; eauto|].
    intros ->. rewrite Ht4 by reflexivity. rewrite Ht3, Ht2.
    cbn [flat_map]. rewrite Hp. unfold Run_partition_calls at 2.
    rewrite Hdev, Hc3. rewrite <- !app_assoc. cbn [app].
    repeat match goal with
           | |- flat_map _ _ = flat_map _ _ => fail 1
           | _ => f_equal
           end.
    apply flat_map_ext. intros k.
    destruct Hs3 as [_ Hall].
    destruct (ImagePartitionAction.Partitions (self w) !! k) as [q|] eqn:Hq.
    + destruct (Forall2_lookup_l _ _ _ _ _ Hall Hq) as (q' & Hq' & Hsame).
      rewrite Hq'. symmetry. now apply Run_partition_calls_same.
    + apply lookup_ge_None in Hq.
      rewrite (Forall2_length _ _ _ Hall) in Hq.
      apply lookup_ge_None in Hq. now rewrite Hq.
Qed.


Lemma deref_part_inv (m : Mountpoint.t) (w w' : World) (p : Partition.t) :
  deref_part m w = Ok (p, w') ->
  w' = w /\ bound_partition (ImagePartitionAction.Partitions (self w)) m = Some p.
Proof.
  unfold deref_part, bound_partition.
  destruct (Mountpoint.part m) as [k|]; [|discriminate].
  apply load_partition_inv.
Qed.

Lemma Run_mounts_inv (i : ImagePartitionAction.t) (ms : list Mountpoint.t)
    (w w' : World) (err : error) :
  Run_mounts i ms w = Ok (err, w') ->
  self w' = self w /\ context w' = context w /\
  match err with
  | None =>
      trace w' =
        trace w ++
          flat_map (Run_mount_calls i (context w)
                      (ImagePartitionAction.Partitions (self w))) ms /\
      Forall (fun m =>
                exists p dev,
                  bound_partition (ImagePartitionAction.Partitions (self w)) m
                    = Some p /\
                  getPartitionDevice i (Partition.number p) (context w) = Ok dev)
             ms
  | Some e =>
      exists before m after p failure,
        ms = before ++ m :: after /\
        bound_partition (ImagePartitionAction.Partitions (self w)) m = Some p /\
        e = Partition.Name p +:+ " mount failed: " +:+ failure /\
        trace w' =
          trace w ++
            flat_map (Run_mount_calls i (context w)
                        (ImagePartitionAction.Partitions (self w)))
                     (before ++ [m])
  end.
Proof.
  revert w. induction ms as [|m rest IH]; intros w H.
  - apply ret_inv in H as [-> ->]. cbn. rewrite app_nil_r. auto.
  - cbn [Run_mounts] in H.
    apply bind_inv in H as (p & w1 & H1 & H).
    apply deref_part_inv in H1 as [-> Hp].
    apply bind_inv in H as (c & w1 & H1 & H).
    apply get_context_inv in H1 as [-> ->].
    apply bind_inv in H as (dev & w1 & H1 & H).
    apply lift_inv in H1 as [-> Hdev].
    apply bind_inv in H as (r0 & w1 & H1 & H).
    apply call_inv in H1 as [_ ->].
    apply bind_inv in H as (r & w2 & H1 & H).
    apply call_inv in H1 as [-> ->].
    assert (Hcalls :
      Run_mount_calls i (context w) (ImagePartitionAction.Partitions (self w)) m
      = [MkdirAll (path_Join [DebosContext.imageMntDir (context w);
                              Mountpoint.Mountpoint m]) 755;
         Mount dev
           (path_Join [DebosContext.imageMntDir (context w);
                       Mountpoint.Mountpoint m])
           (mount_fstype p)]).
    { unfold Run_mount_calls. now rewrite Hp, Hdev. }
    destruct (rerr _) as [failure|].
    + apply ret_inv in H as [-> ->]. cbn [emit self context trace].
      split; [reflexivity|]. split; [reflexivity|].
      exists [], m, rest, p, failure. cbn [app flat_map].
      rewrite Hcalls, app_nil_r, <- app_assoc. auto.
    + apply IH in H as (Hs & Hc & Herr).
      cbn [emit self context trace] in Hs, Hc, Herr.
      split; [exact Hs|]. split; [exact Hc|].
      destruct err as [e|].
      * destruct Herr as (before & m1 & after & p1 & failure & -> & Hp1 & -> & Ht).
        exists (m :: before), m1, after, p1, failure.
        split; [reflexivity|]. split; [exact Hp1|]. split; [reflexivity|].
        rewrite Ht. cbn [app flat_map]. rewrite Hcalls, <- !app_assoc.
        reflexivity.
      * destruct Herr as [Ht Hall]. split.
        -- rewrite Ht. cbn [flat_map]. rewrite Hcalls, <- !app_assoc.
           reflexivity.
        -- constructor; [eauto|exact Hall].
Qed.

Lemma generateFSTab_loop_frame (ms : list Mountpoint.t) (w w' : World)
    (err : error) :
  generateFSTab_loop ms w = Ok (err, w') ->
  self w' = self w /\ trace w' = trace w /\
  DebosContext.set_imageFSTab "" (context w') =
    DebosContext.set_imageFSTab "" (context w) /\
  (err = None ->
   Forall (has_UUID (ImagePartitionAction.Partitions (self w))) ms).
Proof.
  revert w. induction ms as [|m rest IH]; intros w H.
  - apply ret_inv in H as [-> ->]. auto.
  - cbn [generateFSTab_loop] in H.
    apply bind_inv in H as (p & w1 & H1 & H).
    apply deref_part_inv in H1 as [-> Hp].
    destruct (String.eqb_spec (Partition.FSUUID p) "") as [Hu|Hu].
    + apply ret_inv in H as [-> ->]. repeat split; auto. discriminate.
    + apply bind_inv in H as (c & w1 & H1 & H).
      apply get_context_inv in H1 as [-> ->].
      apply bind_inv in H as ([] & w1 & H1 & H).
      unfold put_context in H1. injection H1 as <-.
      apply IH in H as (Hs & Ht & Hc & Hall).
      cbn [self context trace] in Hs, Ht, Hc, Hall.
      split; [exact Hs|]. split; [exact Ht|]. split; [exact Hc|].
      intros Hnone. constructor; [exists p; auto|auto].
Qed.

Lemma generateFSTab_frame (i : ImagePartitionAction.t) (w w' : World)
    (err : error) :
  generateFSTab i w = Ok (err, w') ->
  self w' = self w /\ trace w' = trace w /\
  DebosContext.set_imageFSTab "" (context w') =
    DebosContext.set_imageFSTab "" (context w) /\
  (err = None ->
   Forall (has_UUID (ImagePartitionAction.Partitions (self w)))
          (ImagePartitionAction.Mountpoints i)).
Proof.
  unfold generateFSTab. intros H.
  apply bind_inv in H as (c & w1 & H1 & H).
  apply get_context_inv in H1 as [-> ->].
  apply bind_inv in H as ([] & w1 & H1 & H).
  unfold put_context in H1. injection H1 as <-.
  apply generateFSTab_loop_frame in H as (Hs & Ht & Hc & Hall).
  cbn [self context trace] in *. auto.
Qed.

Lemma generateKernelRoot_frame (i : ImagePartitionAction.t) (w w' : World)
    (err : error) :
  generateKernelRoot i w = Ok (err, w') ->
  self w' = self w /\ trace w' = trace w /\
  DebosContext.set_imageKernelRoot "" (context w') =
    DebosContext.set_imageKernelRoot "" (context w).
Proof.
  unfold generateKernelRoot.
  induction (ImagePartitionAction.Mountpoints i) as [|m rest IH]; intros H.
  - apply ret_inv in H as [-> ->]. auto.
  - cbn [generateKernelRoot_loop] in H.
    destruct (String.eqb (Mountpoint.Mountpoint m) "/"); [|now apply IH].
    apply bind_inv in H as (p & w1 & H1 & H).
    apply deref_part_inv in H1 as [-> _].
    destruct (String.eqb (Partition.FSUUID p) "").
    + apply ret_inv in H as [-> ->]. auto.
    + unfold bind, get_context, put_context, ret in H.
      injection H as <- <-. cbn. auto.
Qed.

Lemma flat_map_lookup_seq {A B : Type} (f : A -> list B) (done l : list A) :
  flat_map (fun idx => match (done ++ l) !! idx with
                       | Some x => f x
                       | None => []
                       end)
           (seq (length done) (length l))
  = flat_map f l.
Proof.
  revert done. induction l as [|x l IH]; intros done; [reflexivity|].
  cbn [length seq flat_map].
  rewrite list_lookup_middle by reflexivity. f_equal.
  specialize (IH (done ++ [x])).
  rewrite length_app, Nat.add_1_r, <- app_assoc in IH. exact IH.
Qed.


Lemma same_but_UUIDs_Mountpoints (a b : ImagePartitionAction.t) :
  same_but_UUIDs a b ->
  ImagePartitionAction.Mountpoints b = ImagePartitionAction.Mountpoints a /\
  ImagePartitionAction.usingLoop b = ImagePartitionAction.usingLoop a /\
  ImagePartitionAction.size b = ImagePartitionAction.size a /\
  ImagePartitionAction.ImageName b = ImagePartitionAction.ImageName a /\
  ImagePartitionAction.ImageSize b = ImagePartitionAction.ImageSize a /\
  ImagePartitionAction.PartitionType b = ImagePartitionAction.PartitionType a /\
  length (ImagePartitionAction.Partitions b) =
    length (ImagePartitionAction.Partitions a).
Proof.
  intros [H Hall]. destruct a, b. cbn in *.
  injection H as -> -> -> -> -> ->.
  repeat split. symmetry. exact (Forall2_length _ _ _ Hall).
Qed.

(** Every stage of [Run], whatever its outcome, keeps the action up to
    the UUIDs, and the device and scratch directory of the context. *)
Lemma Run_frame (i : ImagePartitionAction.t) (w w' : World) (err : error) :
  Run i w = Ok (err, w') ->
  same_but_UUIDs (self w) (self w') /\
  DebosContext.image (context w') = DebosContext.image (context w) /\
  DebosContext.scratchdir (context w') = DebosContext.scratchdir (context w).
Proof.
  unfold Run. intros H.
  apply bind_inv in H as (r0 & w1 & H1 & H).
  apply call_inv in H1 as [_ ->].
  apply bind_inv in H as (c & w1 & H1 & H).
  apply get_context_inv in H1 as [-> ->].
  apply bind_inv in H as (r & w1 & H1 & H).
  apply call_inv in H1 as [-> ->].
  destruct (rerr _) as [e|].
  { apply ret_inv in H as [-> ->]. cbn [emit self context trace].
    split; [apply same_but_UUIDs_refl|auto]. }
  apply bind_inv in H as (err1 & w2 & H1 & H).
  apply Run_partitions_inv in H1 as (Hc2 & Hs2 & _).
  cbn [emit self context trace] in Hc2, Hs2.
  destruct err1 as [e|].
  { apply ret_inv in H as [-> ->]. rewrite Hc2. auto. }
  apply bind_inv in H as (c & w3 & H1 & H).
  apply get_context_inv in H1 as [-> ->].
  apply bind_inv in H as ([] & w3 & H1 & H).
  unfold put_context in H1. injection H1 as <-.
  apply bind_inv in H as (c & w3 & H1 & H).
  apply get_context_inv in H1 as [-> ->].
  apply bind_inv in H as (r1 & w3 & H1 & H).
  apply call_inv in H1 as [_ ->].
  apply bind_inv in H as (err2 & w4 & H1 & H).
  apply Run_mounts_inv in H1 as (Hs4 & Hc4 & _).
  cbn [emit self context trace] in Hs4, Hc4.
  destruct err2 as [e|].
  { apply ret_inv in H as [-> ->]. rewrite Hs4, Hc4, Hc2. cbn. auto. }
  apply bind_inv in H as (err3 & w5 & H1 & H).
  apply generateFSTab_frame in H1 as (Hs5 & _ & Hc5 & _).
  assert (Himg5 : DebosContext.image (context w5) = DebosContext.image (context w)
                  /\ DebosContext.scratchdir (context w5)
                     = DebosContext.scratchdir (context w)).
  { pose proof (f_equal DebosContext.image Hc5) as Hi.
    pose proof (f_equal DebosContext.scratchdir Hc5) as Hd.
    cbn in Hi, Hd. rewrite Hi, Hd, Hc4, Hc2. cbn. auto. }
  destruct err3 as [e|].
  { apply ret_inv in H as [-> ->]. rewrite Hs5, Hs4. split; [exact Hs2|exact Himg5]. }
  apply bind_inv in H as (err4 & w6 & H1 & H).
  apply generateKernelRoot_frame in H1 as (Hs6 & _ & Hc6).
  assert (Hw : w' = w6).
  { destruct err4; apply ret_inv in H as [_ ->]; reflexivity. }
  subst w'.
  pose proof (f_equal DebosContext.image Hc6) as Hi.
  pose proof (f_equal DebosContext.scratchdir Hc6) as Hd.
  cbn in Hi, Hd. rewrite Hs6, Hs5, Hs4, Hi, Hd. split; [exact Hs2|exact Himg5].
Qed.

(** What a successful [Run] did, stage by stage. *)
Lemma Run_success_inv (i : ImagePartitionAction.t) (w w' : World) :
  Run i w = Ok (None, w') ->
  Forall (has_UUID (ImagePartitionAction.Partitions (self w')))
         (ImagePartitionAction.Mountpoints i) /\
  DebosContext.imageMntDir (context w') =
    path_Join [DebosContext.scratchdir (context w); "mnt"] /\
  DebosContext.imageFSTab (context w') =
    fstab_of (ImagePartitionAction.Partitions (self w'))
             (ImagePartitionAction.Mountpoints i) /\
  generateKernelRoot i
    (mkWorld (self w')
       (DebosContext.set_imageKernelRoot
          (DebosContext.imageKernelRoot (context w)) (context w'))
       (trace w'))
    = Ok (None, w') /\
  trace w' =
    trace w
    ++ [LogStart;
        CommandRun "parted"
          ["parted"; "-s"; DebosContext.image (context w); "mklabel";
           ImagePartitionAction.PartitionType i]]
    ++ flat_map (fun idx =>
                   match ImagePartitionAction.Partitions (self w) !! idx with
                   | Some p => Run_partition_calls i (context w) p
                   | None => []
                   end)
                (seq 0 (length (ImagePartitionAction.Partitions i)))
    ++ [MkdirAll (path_Join [DebosContext.scratchdir (context w); "mnt"]) 755]
    ++ flat_map (Run_mount_calls i (context w')
                   (ImagePartitionAction.Partitions (self w')))
                (ImagePartitionAction.Mountpoints i) /\
  Forall (fun m =>
            exists p dev,
              bound_partition (ImagePartitionAction.Partitions (self w')) m
                = Some p /\
              getPartitionDevice i (Partition.number p) (context w') = Ok dev)
         (ImagePartitionAction.Mountpoints i).
Proof.
  unfold Run. intros H.
  apply bind_inv in H as (r0 & w1 & H1 & H).
  apply call_inv in H1 as [_ ->].
  apply bind_inv in H as (c & w1 & H1 & H).
  apply get_context_inv in H1 as [-> ->].
  apply bind_inv in H as (r & w1 & H1 & H).
  apply call_inv in H1 as [-> ->].
  destruct (rerr _) as [e|].
  { apply ret_inv in H as [[=] _]. }
  apply bind_inv in H as (err1 & w2 & H1 & H).
  apply Run_partitions_inv in H1 as (Hc2 & Hs2 & Ht2).
  cbn [emit self context trace] in Hc2, Hs2, Ht2.
  destruct err1 as [e|].
  { apply ret_inv in H as [[=] _]. }
  specialize (Ht2 eq_refl).
  apply bind_inv in H as (c & w3 & H1 & H).
  apply get_context_inv in H1 as [-> ->].
  apply bind_inv in H as ([] & w3 & H1 & H).
  unfold put_context in H1. injection H1 as <-.
  apply bind_inv in H as (c & w3 & H1 & H).
  apply get_context_inv in H1 as [-> ->].
  apply bind_inv in H as (r1 & w3 & H1 & H).
  apply call_inv in H1 as [_ ->].
  apply bind_inv in H as (err2 & w4 & H1 & H).
  apply Run_mounts_inv in H1 as (Hs4 & Hc4 & Hm4).
  cbn [emit self context trace] in Hs4, Hc4, Hm4.
  destruct err2 as [e|].
  { apply ret_inv in H as [[=] _]. }
  destruct Hm4 as [Ht4 Hall4].
  apply bind_inv in H as (err3 & w5 & H1 & H).
  pose proof (generateFSTab_frame _ _ _ _ H1) as (Hs5 & Ht5 & _ & Hu5).
  destruct err3 as [e|].
  { apply ret_inv in H as [[=] _]. }
  specialize (Hu5 eq_refl).
  rewrite (generateFSTab_ok _ _ Hu5) in H1. injection H1 as <-.
  apply bind_inv in H as (err4 & w6 & H1 & H).
  pose proof (generateKernelRoot_frame _ _ _ _ H1) as (Hs6 & Ht6 & Hc6).
  cbn [self context trace] in Hs6, Ht6, Hc6.
  assert (err4 = None /\ w' = w6) as [-> ->].
  { destruct err4; apply ret_inv in H as [[=] ->]. auto. }
  clear H.
  assert (Hctx : context w6 =
            DebosContext.set_imageKernelRoot
              (DebosContext.imageKernelRoot (context w6))
              (DebosContext.set_imageFSTab
                 (fstab_of (ImagePartitionAction.Partitions (self w4))
                           (ImagePartitionAction.Mountpoints i))
                 (context w4))).
  { destruct (context w6), (context w4). cbn in Hc6 |- *.
    injection Hc6 as -> -> -> ->. reflexivity. }
  rewrite Hs6. cbn [self].
  split; [exact Hu5|].
  split; [rewrite Hctx, Hc4, Hc2; reflexivity|].
  split; [rewrite Hctx; reflexivity|].
  split.
  { etransitivity; [|exact H1]. f_equal. rewrite Ht6. cbn [trace]. f_equal.
    rewrite Hctx, Hc4, Hc2. reflexivity. }
  assert (Hcalls : forall m,
            Run_mount_calls i (context w6) (ImagePartitionAction.Partitions (self w4)) m
            = Run_mount_calls i (context w4) (ImagePartitionAction.Partitions (self w4)) m).
  { intros m. rewrite Hctx. reflexivity. }
  split.
  - rewrite (flat_map_ext _ _ Hcalls).
    rewrite Ht6. cbn [trace]. rewrite Ht4, Ht2. cbn [emit trace].
    rewrite <- !app_assoc. cbn [app]. rewrite Hs4, Hc4, Hc2.
    reflexivity.
  - rewrite Hs4. eapply Forall_impl; [exact Hall4|].
    intros m (p & dev & Hp & Hdev). exists p, dev.
    split; [exact Hp|]. rewrite Hctx, Hc4. exact Hdev.
Qed.





(** X3. When [Run] returns no error, every mountpoint of the action is
    bound to a partition whose UUID is not empty, the mount directory is
    [mnt] under the scratch directory, the fstab buffer holds exactly one
    line per mountpoint, built from the partitions as [Run] left them,
    and the kernel-root string is "root=UUID=" followed by the UUID of
    the partition of the first mountpoint on the root path, or what it
    was before when there is no such mountpoint. *)
Theorem Run_success_artifacts (i : ImagePartitionAction.t) (w w' : World) :
  Run i w = Ok (None, w') ->
  Forall (has_UUID (ImagePartitionAction.Partitions (self w')))
         (ImagePartitionAction.Mountpoints i) /\
  DebosContext.imageMntDir (context w') =
    path_Join [DebosContext.scratchdir (context w); "mnt"] /\
  DebosContext.imageFSTab (context w') =
    fstab_of (ImagePartitionAction.Partitions (self w'))
             (ImagePartitionAction.Mountpoints i) /\
  (Forall not_root (ImagePartitionAction.Mountpoints i) ->
   DebosContext.imageKernelRoot (context w') =
     DebosContext.imageKernelRoot (context w)) /\
  (forall before m after p,
     ImagePartitionAction.Mountpoints i = before ++ m :: after ->
     Forall not_root before ->
     Mountpoint.Mountpoint m = "/" ->
     bound_partition (ImagePartitionAction.Partitions (self w')) m = Some p ->
     DebosContext.imageKernelRoot (context w') =
       "root=UUID=" +:+ Partition.FSUUID p).
Proof.
  intros H. apply Run_success_inv in H as (Hall & Hmnt & Hfstab & Hroot & _ & _).
  split; [exact Hall|]. split; [exact Hmnt|]. split; [exact Hfstab|].
  unfold generateKernelRoot in Hroot. split.
  - intros Hnone. rewrite generateKernelRoot_loop_no_root in Hroot by exact Hnone.
    injection Hroot as <-. reflexivity.
  - intros before m after p Hms Hbefore Hm Hp.
    rewrite Hms in Hroot.
    rewrite (generateKernelRoot_loop_first_root before after m p) in Hroot;
      [|exact Hbefore|exact Hm|exact Hp].
    destruct (String.eqb (Partition.FSUUID p) ""); [discriminate|].
    injection Hroot as <-. reflexivity.
Qed.

(** X4. When [Run], called on the action the engine holds, returns no
    error, the operations it performed on the outside world are, in this
    order: the log line and the creation of the partition table; for
    each partition in declaration order its creation, its flags, its
    mkfs and its UUID probe; the creation of the mount directory; and for
    each mountpoint in declaration order its directory and its mount,
    with the mount type [vfat] for a [fat32] partition. *)
Theorem Run_success_trace (w w' : World) :
  Run (self w) w = Ok (None, w') ->
  trace w' =
    trace w
    ++ [LogStart;
        CommandRun "parted"
          ["parted"; "-s"; DebosContext.image (context w); "mklabel";
           ImagePartitionAction.PartitionType (self w)]]
    ++ flat_map (Run_partition_calls (self w) (context w))
                (ImagePartitionAction.Partitions (self w))
    ++ [MkdirAll (path_Join [DebosContext.scratchdir (context w); "mnt"]) 755]
    ++ flat_map (Run_mount_calls (self w) (context w')
                   (ImagePartitionAction.Partitions (self w')))
                (ImagePartitionAction.Mountpoints (self w)).
Proof.
  intros H. apply Run_success_inv in H as (_ & _ & _ & _ & Ht & _).
  rewrite Ht. do 2 f_equal. f_equal.
  exact (flat_map_lookup_seq _ [] _).
Qed.

(** X5. When the mount loop of [Run] returns an error, the error is the
    name of the partition of one mountpoint followed by " mount failed: "
    and the failure; that mountpoint and those before it were given
    their directory and their mount call, and those after it nothing. *)
Theorem Run_mounts_failure (i : ImagePartitionAction.t)
    (ms : list Mountpoint.t) (w w' : World) (e : string) :
  Run_mounts i ms w = Ok (Some e, w') ->
  exists before m after p failure,
    ms = before ++ m :: after /\
    bound_partition (ImagePartitionAction.Partitions (self w)) m = Some p /\
    e = Partition.Name p +:+ " mount failed: " +:+ failure /\
    trace w' =
      trace w ++
        flat_map (Run_mount_calls i (context w)
                    (ImagePartitionAction.Partitions (self w)))
                 (before ++ [m]).
Proof. intros H. now apply Run_mounts_inv in H as (_ & _ & H). Qed.

Lemma mount_targets_partition_calls (i : ImagePartitionAction.t)
    (context0 : DebosContext.t) (ps : list Partition.t) :
  mount_targets (flat_map (Run_partition_calls i context0) ps) = [].
Proof.
  unfold mount_targets. induction ps as [|p ps IH]; [reflexivity|].
  cbn [flat_map]. rewrite omap_app, IH, app_nil_r.
  unfold Run_partition_calls.
  destruct (getPartitionDevice i (Partition.number p) context0); [|reflexivity].
  rewrite !omap_app. cbn.
  induction (Partition.Flags p) as [|f fs IHf]; [reflexivity|exact IHf].
Qed.

Lemma mount_targets_mount_calls (i : ImagePartitionAction.t)
    (context0 : DebosContext.t) (ps : list Partition.t)
    (ms : list Mountpoint.t) :
  Forall (fun m =>
            exists p dev,
              bound_partition ps m = Some p /\
              getPartitionDevice i (Partition.number p) context0 = Ok dev) ms ->
  mount_targets (flat_map (Run_mount_calls i context0 ps) ms) =
    map (fun m => path_Join [DebosContext.imageMntDir context0;
                             Mountpoint.Mountpoint m]) ms.
Proof.
  unfold mount_targets.
  induction 1 as [|m rest (p & dev & Hp & Hdev) _ IH]; [reflexivity|].
  cbn [flat_map map]. rewrite omap_app, IH.
  unfold Run_mount_calls. now rewrite Hp, Hdev.
Qed.

Lemma unmount_targets_Cleanup (context0 : DebosContext.t)
    (ms : list Mountpoint.t) (after : list Call) :
  (forall c, In c after -> forall target, c <> Unmount target) ->
  unmount_targets (map (Cleanup_unmount context0) ms ++ after) =
    map (fun m => path_Join [DebosContext.imageMntDir context0;
                             Mountpoint.Mountpoint m]) ms.
Proof.
  intros Hafter. unfold unmount_targets. rewrite omap_app.
  assert (Hnil : omap (fun c => match c with
                                | Unmount target => Some target
                                | _ => None
                                end) after = []).
  { induction after as [|c after IH]; [reflexivity|].
    cbn [omap]. destruct c; try (apply IH; intros; apply Hafter; now right).
    exfalso. eapply Hafter; [now left|reflexivity]. }
  rewrite Hnil, app_nil_r.
  induction ms as [|m ms IH]; [reflexivity|]. cbn. now rewrite IH.
Qed.

(** X6. After a [Run] without error on the action the engine holds,
    [Cleanup] on that action and context unmounts exactly the targets
    [Run] mounted, in the reverse order. *)
Theorem Cleanup_unmounts_what_Run_mounted (w w1 : World) :
  Run (self w) w = Ok (None, w1) ->
  exists w2,
    Cleanup (self w1) (context w1) w1 = Ok (None, w2) /\
    unmount_targets (drop (length (trace w1)) (trace w2)) =
      rev (mount_targets (drop (length (trace w)) (trace w1))).
Proof.
  intros H.
  pose proof (Run_frame _ _ _ _ H) as (Hsame & _ & _).
  apply same_but_UUIDs_Mountpoints in Hsame as (Hms & _).
  pose proof (Run_success_inv _ _ _ H) as (_ & _ & _ & _ & Ht & Hall).
  eexists. split; [apply Cleanup_closed|]. cbn [trace].
  rewrite drop_app_length, Ht, drop_app_length.
  pose proof (flat_map_lookup_seq (Run_partition_calls (self w) (context w)) []
                (ImagePartitionAction.Partitions (self w))) as Hseq.
  cbn [app length] in Hseq. rewrite Hseq. clear Hseq.
  unfold mount_targets at 1. rewrite !omap_app.
  fold (mount_targets (flat_map (Run_partition_calls (self w) (context w))
                         (ImagePartitionAction.Partitions (self w)))).
  rewrite mount_targets_partition_calls.
  fold (mount_targets (flat_map (Run_mount_calls (self w) (context w1)
                         (ImagePartitionAction.Partitions (self w1)))
                         (ImagePartitionAction.Mountpoints (self w)))).
  rewrite (mount_targets_mount_calls _ _ _ _ Hall). cbn [omap app].
  rewrite unmount_targets_Cleanup.
  - rewrite Hms. now rewrite map_rev.
  - intros c Hc target ->.
    destruct (ImagePartitionAction.usingLoop (self w1));
      [destruct Hc as [Hc|[]]; discriminate|destruct Hc].
Qed.


(** *** More on Verify *)

Lemma Verify_partition_error_number (num : Z) (p : Partition.t) :
  Verify_partition_error (Partition.set_number num p) = Verify_partition_error p.
Proof. now destruct p. Qed.

Lemma Verify_partition_error_None (p : Partition.t) :
  Verify_partition_error p = None <-> complete p.
Proof.
  unfold Verify_partition_error, complete.
  destruct (String.eqb_spec (Partition.Name p) "");
    [split; [discriminate|intros (? & ? & ? & ?); contradiction]|].
  destruct (String.eqb_spec (Partition.Start p) "");
    [split; [discriminate|intros (? & ? & ? & ?); contradiction]|].
  destruct (String.eqb_spec (Partition.End_ p) "");
    [split; [discriminate|intros (? & ? & ? & ?); contradiction]|].
  destruct (String.eqb_spec (Partition.FS p) "");
    [split; [discriminate|intros (? & ? & ? & ?); contradiction]|].
  split; [intros _; repeat split; assumption|reflexivity].
Qed.

Lemma number_from_None (todo : list Partition.t) (num : Z) :
  snd (number_from num todo) = None <-> Forall complete todo.
Proof.
  split; [|apply number_from_complete].
  revert num. induction todo as [|p rest IH]; intros num H; [constructor|].
  cbn [number_from] in H.
  destruct (Verify_partition_error (Partition.set_number num p)) eqn:E;
    [discriminate|].
  rewrite Verify_partition_error_number in E.
  constructor; [now apply Verify_partition_error_None|].
  exact (IH _ H).
Qed.

Lemma number_from_idem (todo : list Partition.t) (num : Z) :
  number_from num (fst (number_from num todo)) = number_from num todo.
Proof.
  revert num. induction todo as [|p rest IH]; intros num; [reflexivity|].
  cbn [number_from].
  destruct (Verify_partition_error (Partition.set_number num p)) eqn:E;
    cbn [fst number_from];
    change (Partition.set_number num (Partition.set_number num p))
      with (Partition.set_number num p);
    rewrite E; [reflexivity|].
  now rewrite IH.
Qed.

Lemma number_from_erase (todo : list Partition.t) (num : Z) :
  map (Partition.set_number 0) (fst (number_from num todo)) =
    map (Partition.set_number 0) todo.
Proof.
  revert num. induction todo as [|p rest IH]; intros num; [reflexivity|].
  cbn [number_from].
  destruct (Verify_partition_error (Partition.set_number num p));
    cbn [fst map]; [reflexivity|].
  now rewrite IH.
Qed.

Lemma number_from_first_error (before after : list Partition.t)
    (p : Partition.t) (e : string) (num : Z) :
  (0 <= num)%Z ->
  (num + Z.of_nat (length before) <= max_int)%Z ->
  Forall complete before ->
  Verify_partition_error p = Some e ->
  number_from num (before ++ p :: after) =
    (imap (fun k q => Partition.set_number (num + Z.of_nat k) q) before
       ++ Partition.set_number (num + Z.of_nat (length before)) p :: after,
     Some e).
Proof.
  intros Hnum Hmax Hbefore He. revert num Hnum Hmax.
  induction Hbefore as [|q rest Hq _ IH]; intros num Hnum Hmax.
  - cbn [app number_from imap length].
    rewrite Verify_partition_error_number, He. now rewrite Z.add_0_r.
  - cbn [app number_from imap length] in *.
    rewrite (Verify_partition_error_complete _ _ Hq).
    rewrite int_wrap_small by lia.
    rewrite IH by lia. cbn [fst snd]. rewrite Z.add_0_r.
    f_equal. f_equal. f_equal.
    + apply imap_ext. intros k x _. cbn. f_equal. lia.
    + f_equal. f_equal. lia.
Qed.

Lemma Verify_bind_idem (ps : list Partition.t) (m : Mountpoint.t) :
  Verify_bind ps (Verify_bind ps m) = Verify_bind ps m.
Proof.
  unfold Verify_bind.
  destruct (Verify_scan (Mountpoint.Partition m) ps 0) as [k|] eqn:E.
  - cbn. now rewrite E.
  - now rewrite E.
Qed.

Lemma resolve_from_idem (ps : list Partition.t) (todo : list Mountpoint.t) :
  resolve_from ps (fst (resolve_from ps todo)) = resolve_from ps todo.
Proof.
  induction todo as [|m rest IH]; [reflexivity|].
  cbn [resolve_from].
  destruct (Mountpoint.part (Verify_bind ps m)) eqn:E;
    cbn [fst resolve_from]; rewrite Verify_bind_idem, E; [|reflexivity].
  now rewrite IH.
Qed.

Lemma resolve_from_erase (ps : list Partition.t) (todo : list Mountpoint.t) :
  map (Mountpoint.set_part None) (fst (resolve_from ps todo)) =
    map (Mountpoint.set_part None) todo.
Proof.
  induction todo as [|m rest IH]; [reflexivity|].
  cbn [resolve_from].
  assert (Hm : Mountpoint.set_part None (Verify_bind ps m) =
               Mountpoint.set_part None m).
  { unfold Verify_bind. now destruct (Verify_scan _ _ _). }
  destruct (Mountpoint.part (Verify_bind ps m));
    cbn [fst map]; rewrite Hm; [|reflexivity].
  now rewrite IH.
Qed.

Lemma resolve_from_matched (ps : list Partition.t) (todo : list Mountpoint.t) :
  Forall (matched ps) todo -> snd (resolve_from ps todo) = None.
Proof.
  induction 1 as [|m rest (p & Hin & Hname) _ IH]; [reflexivity|].
  cbn [resolve_from]. unfold Verify_bind.
  destruct (Verify_scan (Mountpoint.Partition m) ps 0) as [k|] eqn:E.
  - exact IH.
  - exfalso. exact (proj1 (Verify_scan_None _ _ _) E p Hin Hname).
Qed.

Lemma resolve_from_None (ps : list Partition.t) (todo : list Mountpoint.t) :
  Forall (fun m => Mountpoint.part m = None) todo ->
  snd (resolve_from ps todo) = None ->
  Forall (matched ps) todo.
Proof.
  intros Hunbound Hok.
  destruct (resolve_from_ok _ _ Hunbound Hok) as [_ Hall].
  eapply Forall_impl; [exact Hall|].
  intros m [k Hk].
  destruct (Verify_scan_Some _ _ _ _ Hk) as (j & p & _ & Hp & Hname & _).
  exists p. split; [|exact Hname].
  apply list_elem_of_In. eapply list_elem_of_lookup_2. exact Hp.
Qed.

Lemma matched_names (ps ps' : list Partition.t) (m : Mountpoint.t) :
  map Partition.Name ps = map Partition.Name ps' ->
  matched ps m -> matched ps' m.
Proof.
  intros Hnames (p & Hin & Hname).
  assert (H : In (Partition.Name p) (map Partition.Name ps'))
    by (rewrite <- Hnames; now apply in_map).
  apply in_map_iff in H as (q & Hq & Hin'). exists q. split; [exact Hin'|congruence].
Qed.

(** C6. For mountpoints that enter [Verify] unbound, as a decoded recipe
    has them. When every partition passes its checks, every mountpoint
    refers to the name of some partition and the size parses, [Verify]
    returns no error. Whenever it returns no error, the partitions keep
    their names and their order, the mountpoints are the declared ones,
    in order, each changed only in its binding, and each is bound to the
    first partition, in declaration order, that has the name it refers
    to. When some mountpoint refers to a name no
    partition has, [Verify] returns an error without any call to the
    outside world, the engine stops there, and, the partitions having
    passed their own checks, the error is "Couldn't fount partition for"
    followed by the path of such a mountpoint. *)
Theorem Verify_resolves_mountpoints (w : World) :
  Forall (fun m => Mountpoint.part m = None)
         (ImagePartitionAction.Mountpoints (self w)) ->
  (Forall complete (ImagePartitionAction.Partitions (self w)) ->
   Forall (matched (ImagePartitionAction.Partitions (self w)))
          (ImagePartitionAction.Mountpoints (self w)) ->
   snd (FromHumanSize (ImagePartitionAction.ImageSize (self w))) = None ->
   exists w', Verify w = Ok (None, w')) /\
  (forall w',
     Verify w = Ok (None, w') ->
     map Partition.Name (ImagePartitionAction.Partitions (self w')) =
       map Partition.Name (ImagePartitionAction.Partitions (self w)) /\
     length (ImagePartitionAction.Mountpoints (self w')) =
       length (ImagePartitionAction.Mountpoints (self w)) /\
     forall idx m,
       ImagePartitionAction.Mountpoints (self w) !! idx = Some m ->
       exists k p,
         ImagePartitionAction.Mountpoints (self w') !! idx =
           Some (Mountpoint.set_part (Some k) m) /\
         ImagePartitionAction.Partitions (self w') !! k = Some p /\
         Partition.Name p = Mountpoint.Partition m /\
         forall j q,
           j < k ->
           ImagePartitionAction.Partitions (self w') !! j = Some q ->
           Partition.Name q <> Mountpoint.Partition m) /\
  ((exists m,
      In m (ImagePartitionAction.Mountpoints (self w)) /\
      unmatched (ImagePartitionAction.Partitions (self w)) m) ->
   (exists e w',
      Verify w = Ok (Some e, w') /\
      trace w' = trace w /\
      forall how, lifecycle how w = Ok (Some e, w')) /\
   (Forall complete (ImagePartitionAction.Partitions (self w)) ->
    exists m w',
      In m (ImagePartitionAction.Mountpoints (self w)) /\
      unmatched (ImagePartitionAction.Partitions (self w)) m /\
      Verify w =
        Ok (Some ("Couldn't fount partition for " +:+ Mountpoint.Mountpoint m), w'))).
Proof.
  set (ps := ImagePartitionAction.Partitions (self w)).
  set (ms := ImagePartitionAction.Mountpoints (self w)).
  intros Hunbound.
  assert (Hnames : map Partition.Name (fst (number_from 1 ps)) = map Partition.Name ps)
    by apply number_from_names.
  split; [|split].
  - intros Hcomplete Hmatched Hsize. rewrite Verify_closed. cbn zeta.
    fold ps ms. rewrite (number_from_complete _ 1 Hcomplete).
    rewrite resolve_from_matched.
    + rewrite Hsize. eauto.
    + eapply Forall_impl; [exact Hmatched|]. intros m.
      apply matched_names. symmetry. exact Hnames.
  - intros w' Hok.
    destruct (Verify_Ok_None _ _ Hok) as (_ & Hres & Hps & Hms).
    fold ps ms in Hres, Hps, Hms.
    destruct (resolve_from_ok _ _ Hunbound Hres) as [Hfst Hall].
    split; [rewrite Hps; exact Hnames|].
    split; [now rewrite Hms, Hfst, length_map|].
    intros idx m Hm.
    rewrite Forall_forall in Hall.
    destruct (Hall m) as [k Hk].
    { eapply list_elem_of_lookup_2; eauto. }
    destruct (Verify_scan_Some _ _ _ _ Hk) as (j & p & -> & Hp & Hname & Hfirst).
    exists j, p. rewrite Hms, Hfst, list_lookup_fmap, Hm, Hps.
    cbn [fmap option_fmap option_map]. unfold Verify_bind. rewrite Hk.
    repeat split; auto.
  - intros (m0 & Hin & Hun).
    destruct (resolve_from_unmatched _ _ Hunbound (ex_intro _ m0 (conj Hin Hun)))
      as (m1 & Hin1 & Hun1 & Herr).
    rewrite <- (resolve_from_names _ _ _ Hnames) in Herr.
    split.
    + assert (H : exists e w', Verify w = Ok (Some e, w') /\ trace w' = trace w).
      { rewrite Verify_closed. cbn zeta. fold ps ms.
        destruct (snd (number_from 1 ps)) as [e|]; [eauto|].
        rewrite Herr. eauto. }
      destruct H as (e & w' & HV & Htr). exists e, w'.
      split; [exact HV|]. split; [exact Htr|].
      intros how. now apply lifecycle_stops_at_Verify.
    + intros Hcomplete. exists m1. eexists.
      split; [exact Hin1|]. split; [exact Hun1|].
      rewrite Verify_closed. cbn zeta. fold ps ms.
      rewrite (number_from_complete _ _ Hcomplete), Herr. reflexivity.
Qed.

(** X7. [Verify] never panics and never calls the outside world: on every
    world it returns, with the context and the trace as they were. In
    the action it changes at most the ordinals of the partitions, the
    bindings of the mountpoints and the size. *)
Theorem Verify_stays_inside (w : World) :
  exists err w',
    Verify w = Ok (err, w') /\
    context w' = context w /\
    trace w' = trace w /\
    map (Partition.set_number 0) (ImagePartitionAction.Partitions (self w')) =
      map (Partition.set_number 0) (ImagePartitionAction.Partitions (self w)) /\
    map (Mountpoint.set_part None) (ImagePartitionAction.Mountpoints (self w')) =
      map (Mountpoint.set_part None) (ImagePartitionAction.Mountpoints (self w)) /\
    ImagePartitionAction.set_size 0
      (ImagePartitionAction.set_Partitions []
         (ImagePartitionAction.set_Mountpoints [] (self w'))) =
    ImagePartitionAction.set_size 0
      (ImagePartitionAction.set_Partitions []
         (ImagePartitionAction.set_Mountpoints [] (self w))).
Proof.
  rewrite Verify_closed. cbn zeta.
  pose proof (number_from_erase (ImagePartitionAction.Partitions (self w)) 1)
    as Hps.
  pose proof (resolve_from_erase
                (fst (number_from 1 (ImagePartitionAction.Partitions (self w))))
                (ImagePartitionAction.Mountpoints (self w))) as Hms.
  destruct (snd (number_from 1 _)).
  { eexists _, _. split; [reflexivity|]. cbn. auto. }
  destruct (snd (resolve_from _ _)).
  { eexists _, _. split; [reflexivity|]. cbn. auto. }
  destruct (snd (FromHumanSize _)).
  { eexists _, _. split; [reflexivity|]. cbn. auto. }
  eexists _, _. split; [reflexivity|]. cbn. auto.
Qed.

(** X8. The first loop of [Verify] stops at the first partition that
    lacks a name, a start, an end or a filesystem type, and [Verify]
    returns the error of that partition. The partitions before it and
    that partition itself have received their ordinals, 1, 2, ...; the
    partitions after it, the mountpoints and the size are as they
    were. *)
Theorem Verify_stops_at_first_incomplete_partition (w : World)
    (before after : list Partition.t) (p : Partition.t) (e : string) :
  ImagePartitionAction.Partitions (self w) = before ++ p :: after ->
  (Z.of_nat (length before) < max_int)%Z ->
  Forall complete before ->
  Verify_partition_error p = Some e ->
  Verify w =
    Ok (Some e,
        mkWorld
          (ImagePartitionAction.set_Partitions
             (numbered before
                ++ Partition.set_number (Z.of_nat (length before) + 1) p :: after)
             (self w))
          (context w) (trace w)).
Proof.
  intros Hps Hlen Hbefore He. rewrite Verify_closed. cbn zeta.
  rewrite Hps, (number_from_first_error before after p e 1);
    [|lia|lia|assumption|assumption].
  cbn [fst snd].
  replace (1 + Z.of_nat (length before))%Z
    with (Z.of_nat (length before) + 1)%Z by lia.
  replace (imap (fun k q => Partition.set_number (1 + Z.of_nat k) q) before)
    with (numbered before); [reflexivity|].
  unfold numbered. apply imap_ext. intros k q _. cbn. f_equal. lia.
Qed.

(** X9. For mountpoints that enter [Verify] unbound: [Verify] returns no
    error exactly when every partition has a name, a start, an end and a
    filesystem type, every mountpoint refers to the name of some
    partition, and the image size parses; the size stored is then the
    parsed one. *)
Theorem Verify_succeeds_iff (w : World) :
  Forall (fun m => Mountpoint.part m = None)
         (ImagePartitionAction.Mountpoints (self w)) ->
  ((exists w', Verify w = Ok (None, w')) <->
   Forall complete (ImagePartitionAction.Partitions (self w)) /\
   Forall (matched (ImagePartitionAction.Partitions (self w)))
          (ImagePartitionAction.Mountpoints (self w)) /\
   snd (FromHumanSize (ImagePartitionAction.ImageSize (self w))) = None) /\
  (forall w',
     Verify w = Ok (None, w') ->
     ImagePartitionAction.size (self w') =
       fst (FromHumanSize (ImagePartitionAction.ImageSize (self w)))).
Proof.
  intros Hunbound.
  pose proof (number_from_names 1 (ImagePartitionAction.Partitions (self w)))
    as Hnames.
  split; [split|].
  - intros [w' H]. rewrite Verify_closed in H. cbn zeta in H.
    destruct (snd (number_from 1 _)) eqn:E1; [discriminate|].
    destruct (snd (resolve_from _ _)) eqn:E2; [discriminate|].
    destruct (snd (FromHumanSize _)) eqn:E3; [discriminate|].
    split; [now apply number_from_None in E1|]. split; [|reflexivity].
    apply (resolve_from_None _ _ Hunbound) in E2.
    eapply Forall_impl; [exact E2|]. intros m. now apply matched_names.
  - intros (Hcomplete & Hmatched & Hsize). rewrite Verify_closed. cbn zeta.
    rewrite (number_from_complete _ 1 Hcomplete).
    rewrite resolve_from_matched.
    + rewrite Hsize. eauto.
    + eapply Forall_impl; [exact Hmatched|]. intros m. now apply matched_names.
  - intros w'. rewrite Verify_closed. cbn zeta.
    destruct (snd (number_from 1 _)); [discriminate|].
    destruct (snd (resolve_from _ _)); [discriminate|].
    destruct (snd (FromHumanSize _)); [discriminate|].
    intros [= <-]. reflexivity.
Qed.

(** X10. When the partitions and the mountpoints pass their checks and
    the image size does not parse, [Verify] returns "Failed to parse
    image size: " followed by the size as written, and leaves the size
    of the action as it was. *)
Theorem Verify_reports_bad_size (w : World) (e : string) :
  Forall complete (ImagePartitionAction.Partitions (self w)) ->
  Forall (matched (ImagePartitionAction.Partitions (self w)))
         (ImagePartitionAction.Mountpoints (self w)) ->
  snd (FromHumanSize (ImagePartitionAction.ImageSize (self w))) = Some e ->
  exists w',
    Verify w =
      Ok (Some ("Failed to parse image size: "
                +:+ ImagePartitionAction.ImageSize (self w)), w') /\
    ImagePartitionAction.size (self w') = ImagePartitionAction.size (self w).
Proof.
  intros Hcomplete Hmatched Hsize. rewrite Verify_closed. cbn zeta.
  rewrite (number_from_complete _ 1 Hcomplete).
  rewrite resolve_from_matched.
  - rewrite Hsize. eexists. split; reflexivity.
  - eapply Forall_impl; [exact Hmatched|]. intros m.
    apply matched_names. symmetry. apply number_from_names.
Qed.

(** X11. [Verify] is idempotent: called again on the world it left, it
    returns the same result and changes nothing. *)
Theorem Verify_idempotent (w w' : World) (err : error) :
  Verify w = Ok (err, w') -> Verify w' = Ok (err, w').
Proof.
  rewrite !Verify_closed. cbn zeta.
  pose proof (number_from_idem (ImagePartitionAction.Partitions (self w)) 1)
    as Hps.
  pose proof (resolve_from_idem
                (fst (number_from 1 (ImagePartitionAction.Partitions (self w))))
                (ImagePartitionAction.Mountpoints (self w))) as Hms.
  destruct w as [[name size_ type ps ms sz loop] c t]. cbn in *.
  destruct (snd (number_from 1 ps)) eqn:E1.
  { intros [= <- <-]. cbn. now rewrite Hps, E1. }
  destruct (snd (resolve_from (fst (number_from 1 ps)) ms)) eqn:E2.
  { intros [= <- <-]. cbn. now rewrite Hps, E1, Hms, E2. }
  destruct (snd (FromHumanSize size_)) eqn:E3.
  { intros [= <- <-]. cbn. now rewrite Hps, E1, Hms, E2, E3. }
  intros [= <- <-]. cbn. now rewrite Hps, E1, Hms, E2, E3.
Qed.


(** *** More on the provisioning steps *)

(** X12. [PreMachine] never panics and makes one call, the creation of
    the image with the name and the size of its receiver. When that
    fails it returns the failure as it is and leaves the context and the
    arguments untouched; when it succeeds the backing device is
    [/dev/vda], the arguments end with [--internal-image /dev/vda], and
    the device of partition [n] is [/dev/vda] followed by [n]. The
    action is never changed. *)
Theorem PreMachine_sets_virtual_disk (i : ImagePartitionAction.t)
    (args : list string) (w : World) :
  exists args' err w',
    PreMachine i args w = Ok ((args', err), w') /\
    self w' = self w /\
    trace w' =
      trace w ++ [CreateImage (ImagePartitionAction.ImageName i)
                              (ImagePartitionAction.size i)] /\
    err = rerr (env (trace w)
                    (CreateImage (ImagePartitionAction.ImageName i)
                                 (ImagePartitionAction.size i))) /\
    (err <> None -> context w' = context w /\ args' = args) /\
    (err = None ->
     context w' = DebosContext.set_image "/dev/vda" (context w) /\
     args' = args ++ ["--internal-image"; "/dev/vda"] /\
     forall j number,
       getPartitionDevice j number (context w') =
         Ok ("/dev/vda" +:+ fmt_d number)).
Proof.
  unfold PreMachine, bind, call.
  destruct (rerr (env (trace w) _)) as [e|] eqn:E.
  - eexists _, _, _. split; [reflexivity|]. cbn.
    repeat (split; [reflexivity|]). split; [auto|discriminate].
  - eexists _, _, _. split; [reflexivity|]. cbn.
    repeat (split; [reflexivity|]). split; [congruence|].
    intros _. repeat (split; [reflexivity|]). reflexivity.
Qed.

(** X13. [PreNoMachine] never panics. Its calls are a prefix of: open
    the image file, truncate it to the size of the receiver, close it,
    ask losetup for a loop device. When it returns no error all four
    were made and the backing device is the trimmed output of losetup.
    When it returns an error the context is as it was; the error tells
    which call failed, and after a failed truncate the file is not
    closed. *)
Theorem PreNoMachine_calls (i : ImagePartitionAction.t) (w : World) :
  let name := ImagePartitionAction.ImageName i in
  let calls := [OpenFile name; Truncate name (ImagePartitionAction.size i);
                Close name; ExecOutput "losetup" ["-f"; "--show"; name]] in
  exists err w' n,
    PreNoMachine i w = Ok (err, w') /\
    trace w' = trace w ++ take n calls /\
    match err with
    | None =>
        n = 4 /\
        context w' =
          DebosContext.set_image
            (TrimSpace (rout (env (trace w ++ take 3 calls)
                                  (ExecOutput "losetup" ["-f"; "--show"; name]))))
            (context w)
    | Some e =>
        context w' = context w /\
        ((n = 1 /\ exists failure, e = "Couldn't open image file: " +:+ failure) \/
         (n = 2 /\ exists failure, e = "Couldn't resize image file: " +:+ failure) \/
         (n = 4 /\ e = "Failed to setup loop device"))
    end.
Proof.
  cbn zeta. unfold PreNoMachine, bind, call, emit, get_context, put_context, ret.
  cbn [trace self context].
  destruct (rerr (env (trace w) _)) as [e|].
  { eexists (Some ("Couldn't open image file: " +:+ e)), _, 1.
    split; [reflexivity|]. cbn. split; [reflexivity|]. split; [reflexivity|].
    left. eauto. }
  cbn [trace self context].
  destruct (rerr (env (trace w ++ [OpenFile _]) _)) as [e|].
  { eexists (Some ("Couldn't resize image file: " +:+ e)), _, 2.
    split; [reflexivity|]. cbn. rewrite <- app_assoc.
    split; [reflexivity|]. split; [reflexivity|]. right. left. eauto. }
  cbn [trace self context]. rewrite <- !app_assoc. cbn [app].
  destruct (rerr (env _ (ExecOutput _ _))) as [e|].
  { eexists (Some "Failed to setup loop device"), _, 4.
    split; [reflexivity|]. cbn.
    split; [reflexivity|]. split; [reflexivity|]. right. right. eauto. }
  eexists None, _, 4. split; [reflexivity|]. cbn.
  split; [reflexivity|]. split; reflexivity.
Qed.

Lemma PreMachine_trace (i : ImagePartitionAction.t) (args : list string)
    (w w' : World) (r : list string * error) :
  PreMachine i args w = Ok (r, w') ->
  trace w' =
    trace w ++ [CreateImage (ImagePartitionAction.ImageName i)
                            (ImagePartitionAction.size i)].
Proof.
  unfold PreMachine, bind, call, emit, get_context, put_context, ret.
  cbn [trace self context].
  destruct (rerr _); intros [= <- <-]; reflexivity.
Qed.

Lemma PreNoMachine_trace (i : ImagePartitionAction.t) (w w' : World)
    (err : error) :
  PreNoMachine i w = Ok (err, w') ->
  rerr (env (trace w) (OpenFile (ImagePartitionAction.ImageName i))) = None ->
  exists rest,
    trace w' =
      trace w ++ OpenFile (ImagePartitionAction.ImageName i)
              :: Truncate (ImagePartitionAction.ImageName i)
                          (ImagePartitionAction.size i) :: rest.
Proof.
  unfold PreNoMachine, bind, call, emit, get_context, put_context, ret.
  cbn [trace self context]. intros H Hopen. rewrite Hopen in H.
  cbn [trace self context] in H.
  destruct (rerr (env (trace w ++ [OpenFile _]) _)).
  { injection H as <- <-. cbn [trace]. rewrite <- app_assoc. eauto. }
  cbn [trace self context] in H.
  destruct (rerr (env _ (ExecOutput _ _))); injection H as <- <-;
    cbn [trace]; rewrite <- !app_assoc; cbn [app]; eauto.
Qed.

(** X14. The size [Verify] parsed is the size of the image that is
    provisioned: after a [Verify] without error, [PreMachine] on the
    action the engine holds asks for an image of the declared name and
    of the parsed size, and [PreNoMachine], when the file opens, truncates
    it to the parsed size. *)
Theorem Verify_size_reaches_provisioning (w w1 : World) :
  Verify w = Ok (None, w1) ->
  let name := ImagePartitionAction.ImageName (self w) in
  let size := fst (FromHumanSize (ImagePartitionAction.ImageSize (self w))) in
  (forall args r w2,
     PreMachine (self w1) args w1 = Ok (r, w2) ->
     trace w2 = trace w ++ [CreateImage name size]) /\
  (forall err w2,
     PreNoMachine (self w1) w1 = Ok (err, w2) ->
     rerr (env (trace w) (OpenFile name)) = None ->
     exists rest,
       trace w2 = trace w ++ OpenFile name :: Truncate name size :: rest).
Proof.
  rewrite Verify_closed. cbn zeta.
  destruct (snd (number_from 1 _)); [discriminate|].
  destruct (snd (resolve_from _ _)); [discriminate|].
  destruct (snd (FromHumanSize _)); [discriminate|].
  intros [= <-]. split.
  - intros args r w2 H. exact (PreMachine_trace _ _ _ _ _ H).
  - intros err w2 H Hopen. exact (PreNoMachine_trace _ _ _ _ H Hopen).
Qed.

(** *** More on the generators *)

Lemma generateFSTab_loop_app (before rest : list Mountpoint.t) (w : World) :
  Forall (has_UUID (ImagePartitionAction.Partitions (self w))) before ->
  generateFSTab_loop (before ++ rest) w =
    generateFSTab_loop rest
      (mkWorld (self w)
         (DebosContext.set_imageFSTab
            (DebosContext.imageFSTab (context w)
             +:+ fstab_of (ImagePartitionAction.Partitions (self w)) before)
            (context w))
         (trace w)).
Proof.
  revert w. induction before as [|m before IH]; intros w Hms.
  - cbn [app fstab_of]. rewrite append_nil_r. now destruct w as [? [] ?].
  - apply Forall_cons in Hms as [(p & Hp & Hu) Hrest].
    cbn [app generateFSTab_loop fstab_of]. rewrite Hp.
    rewrite (bind_Ok _ _ _ _ _ (deref_part_bound _ _ _ Hp)).
    rewrite (eqb_empty_false _ Hu).
    unfold bind at 1. unfold get_context.
    unfold bind at 1. unfold put_context.
    rewrite IH by exact Hrest.
    cbn [self context trace DebosContext.imageFSTab DebosContext.set_imageFSTab
         DebosContext.scratchdir DebosContext.image DebosContext.imageMntDir
         DebosContext.imageKernelRoot].
    change (["defaults"] ++ Mountpoint.Options m)
      with ("defaults" :: Mountpoint.Options m).
    fold (fstab_line p m). now rewrite append_assoc.
Qed.

Lemma generateFSTab_app (i : ImagePartitionAction.t)
    (before rest : list Mountpoint.t) (w : World) :
  ImagePartitionAction.Mountpoints i = before ++ rest ->
  Forall (has_UUID (ImagePartitionAction.Partitions (self w))) before ->
  generateFSTab i w =
    generateFSTab_loop rest
      (mkWorld (self w)
         (DebosContext.set_imageFSTab
            (fstab_of (ImagePartitionAction.Partitions (self w)) before)
            (context w))
         (trace w)).
Proof.
  intros Hms Hbefore. unfold generateFSTab.
  unfold bind at 1. unfold get_context.
  unfold bind at 1. unfold put_context.
  rewrite Hms, generateFSTab_loop_app by exact Hbefore.
  cbn [self context trace DebosContext.imageFSTab DebosContext.set_imageFSTab
       DebosContext.scratchdir DebosContext.image DebosContext.imageMntDir
       DebosContext.imageKernelRoot].
  now rewrite append_empty_l.
Qed.

(** X15. [generateFSTab] stops at the first mountpoint whose partition
    has no UUID: it returns "Missing fs UUID for partition <name>!?!"
    for that partition, and the buffer, emptied at entry, is left with
    the lines of the mountpoints before it; whatever comes after is not
    looked at. *)
Theorem generateFSTab_stops_at_first_missing_UUID (i : ImagePartitionAction.t)
    (w : World) (before after : list Mountpoint.t) (m : Mountpoint.t)
    (p : Partition.t) :
  ImagePartitionAction.Mountpoints i = before ++ m :: after ->
  Forall (has_UUID (ImagePartitionAction.Partitions (self w))) before ->
  bound_partition (ImagePartitionAction.Partitions (self w)) m = Some p ->
  Partition.FSUUID p = "" ->
  generateFSTab i w =
    Ok (Some ("Missing fs UUID for partition " +:+ Partition.Name p +:+ "!?!"),
        mkWorld (self w)
          (DebosContext.set_imageFSTab
             (fstab_of (ImagePartitionAction.Partitions (self w)) before)
             (context w))
          (trace w)).
Proof.
  intros Hms Hbefore Hp Hu.
  rewrite (generateFSTab_app _ _ _ _ Hms Hbefore).
  cbn [generateFSTab_loop].
  rewrite (bind_Ok _ _ _ _ _
             (deref_part_bound m (mkWorld (self w) _ (trace w)) p Hp)).
  now rewrite Hu.
Qed.

(** X16. A mountpoint that is not bound to a partition, as before
    [Verify], makes the generators panic with a nil dereference:
    [generateFSTab] when the mountpoints before it have their UUIDs,
    [generateKernelRoot] when it is the first mountpoint on the root
    path. An unbound mountpoint that is not on the root path does not
    disturb [generateKernelRoot]. *)
Theorem generators_panic_on_unbound_mountpoint (i : ImagePartitionAction.t)
    (w : World) (before after : list Mountpoint.t) (m : Mountpoint.t) :
  ImagePartitionAction.Mountpoints i = before ++ m :: after ->
  Mountpoint.part m = None ->
  (Forall (has_UUID (ImagePartitionAction.Partitions (self w))) before ->
   generateFSTab i w = Panicked NilDereference) /\
  (Forall not_root before ->
   Mountpoint.Mountpoint m = "/" ->
   generateKernelRoot i w = Panicked NilDereference) /\
  (Forall not_root before ->
   not_root m ->
   generateKernelRoot i w =
     generateKernelRoot_loop after w).
Proof.
  intros Hms Hm. split; [|split].
  - intros Hbefore. rewrite (generateFSTab_app _ _ _ _ Hms Hbefore).
    cbn [generateFSTab_loop]. unfold bind at 1. unfold deref_part at 1.
    rewrite Hm. reflexivity.
  - intros Hbefore Hroot. unfold generateKernelRoot. rewrite Hms. clear Hms.
    induction Hbefore as [|m' rest Hm' _ IH].
    + cbn [app generateKernelRoot_loop]. rewrite Hroot, String.eqb_refl.
      unfold bind at 1. unfold deref_part at 1. rewrite Hm. reflexivity.
    + cbn [app generateKernelRoot_loop]. now rewrite (eqb_root_false _ Hm').
  - intros Hbefore Hnot. unfold generateKernelRoot. rewrite Hms. clear Hms.
    induction Hbefore as [|m' rest Hm' _ IH].
    + cbn [app generateKernelRoot_loop]. now rewrite (eqb_root_false _ Hnot).
    + cbn [app generateKernelRoot_loop]. now rewrite (eqb_root_false _ Hm').
Qed.

(** X17. The first mountpoint on the root path decides for
    [generateKernelRoot]: when its partition has a UUID, the call
    returns no error and changes only the kernel-root string, to
    "root=UUID=" followed by that UUID, whatever the mountpoints after
    it are. *)
Theorem generateKernelRoot_first_root_wins (i : ImagePartitionAction.t)
    (w : World) (before after : list Mountpoint.t) (m : Mountpoint.t)
    (p : Partition.t) :
  ImagePartitionAction.Mountpoints i = before ++ m :: after ->
  Forall not_root before ->
  Mountpoint.Mountpoint m = "/" ->
  bound_partition (ImagePartitionAction.Partitions (self w)) m = Some p ->
  Partition.FSUUID p <> "" ->
  generateKernelRoot i w =
    Ok (None,
        mkWorld (self w)
          (DebosContext.set_imageKernelRoot
             ("root=UUID=" +:+ Partition.FSUUID p) (context w))
          (trace w)).
Proof.
  intros Hms Hbefore Hroot Hp Hu. unfold generateKernelRoot.
  rewrite Hms, (generateKernelRoot_loop_first_root _ _ _ _ _ Hbefore Hroot Hp).
  now rewrite (eqb_empty_false _ Hu).
Qed.

(** *** More on getPartitionDevice *)

Lemma fmt_d_inj (n n' : Z) : fmt_d n = fmt_d n' -> n = n'.
Proof.
  unfold fmt_d. intros H. apply DecimalZ.to_int_inj.
  assert (Hnil : forall z, Z.to_int z <> Decimal.Pos Decimal.Nil /\
                           Z.to_int z <> Decimal.Neg Decimal.Nil).
  { intros [|q|q]; cbn; split; try discriminate; intros [= E];
      exact (DecimalPos.Unsigned.to_uint_nonnil _ E). }
  destruct (Hnil n) as [H1 H2]. destruct (Hnil n') as [H1' H2'].
  pose proof (NilZero.isi _ H1 H2) as E.
  pose proof (NilZero.isi _ H1' H2') as E'.
  rewrite H in E. congruence.
Qed.

Lemma append_inj_r (s a b : string) : s +:+ a = s +:+ b -> a = b.
Proof.
  induction s as [|c s IH]; [now rewrite !append_empty_l|].
  rewrite !append_String. intros [= H]. exact (IH H).
Qed.

(** X18. Two partitions of one image get the same device path only if
    they have the same ordinal. *)
Theorem getPartitionDevice_injective (i i' : ImagePartitionAction.t)
    (number number' : Z) (context0 : DebosContext.t) (path : string) :
  getPartitionDevice i number context0 = Ok path ->
  getPartitionDevice i' number' context0 = Ok path ->
  number = number'.
Proof.
  unfold getPartitionDevice.
  destruct (last_byte (DebosContext.image context0)); [|discriminate].
  destruct (is_digit _); intros [= <-] [= H]; apply fmt_d_inj.
  - apply append_inj_r in H. now apply append_inj_r in H.
  - now apply append_inj_r in H.
Qed.

End Action.

(** ** The properties on the samples *)

(** C5 on /dev/vda, ordinal 2. *)
Lemma getPartitionDevice_suffix_witness :
  DebosContext.image sample_vda_context = "/dev/vd" +:+ String "a"%char "" /\
  getPartitionDevice sample_action 2 sample_vda_context = Ok "/dev/vda2".
Proof.
  split; [reflexivity|].
  exact (getPartitionDevice_suffix sample_action 2 sample_vda_context
           "/dev/vd" "a"%char eq_refl).
Defined.

Example getPartitionDevice_nvme :
  getPartitionDevice sample_action 1
    (DebosContext.mk "/scratch" "/dev/nvme0n1" "" "" "") = Ok "/dev/nvme0n1p1".
Proof. reflexivity. Qed.

Example getPartitionDevice_loop :
  getPartitionDevice sample_action 12 sample_loop_context = Ok "/dev/loop0p12".
Proof. reflexivity. Qed.

(** C10 on the context no provisioning step has filled in. *)
Lemma getPartitionDevice_needs_device_witness :
  DebosContext.image sample_context = "" /\
  getPartitionDevice sample_verified_action 1 sample_context
    = Panicked IndexOutOfRange /\
  formatPartition env_ok sample_TrimSpace sample_verified_action 0 sample_context
    (mkWorld sample_verified_action sample_context [])
    = Panicked IndexOutOfRange.
Proof.
  split; [reflexivity|].
  destruct (proj2 (getPartitionDevice_needs_device env_ok sample_Join
                     sample_TrimSpace sample_verified_action sample_context)
                  eq_refl) as (Hdev & Hformat & _).
  split; [exact (Hdev 1%Z)|]. eapply Hformat. reflexivity.
Defined.

(** C3 on three nested mountpoints, every unmount failing. *)
Example Cleanup_nested_mountpoints :
  exists w',
    Cleanup env_unmount_fails sample_Join nested_action
      (DebosContext.mk "/scratch" "/dev/vda" "/scratch/mnt" "" "")
      (mkWorld nested_action
         (DebosContext.mk "/scratch" "/dev/vda" "/scratch/mnt" "" "") [])
      = Ok (None, w') /\
    trace w' =
      [Unmount "/scratch/mnt/boot/efi"; Unmount "/scratch/mnt/boot";
       Unmount "/scratch/mnt"].
Proof. eexists. split; vm_compute; reflexivity. Qed.

(** C1 on the sample: host provisioning succeeds and records
    /dev/loop0, and [Cleanup] does not detach it. *)
Lemma PreNoMachine_does_not_arm_Cleanup_witness :
  ImagePartitionAction.usingLoop
    (self (mkWorld sample_verified_action sample_context [])) = false /\
  PreNoMachine env_ok sample_TrimSpace sample_verified_action
    (mkWorld sample_verified_action sample_context [])
    = Ok (None,
          mkWorld sample_verified_action sample_loop_context
            [OpenFile "disk.img"; Truncate "disk.img" 1073741824;
             Close "disk.img";
             ExecOutput "losetup" ["-f"; "--show"; "disk.img"]]) /\
  exists w2 calls,
    Cleanup env_ok sample_Join sample_verified_action sample_loop_context
      (mkWorld sample_verified_action sample_loop_context
         [OpenFile "disk.img"; Truncate "disk.img" 1073741824;
          Close "disk.img";
          ExecOutput "losetup" ["-f"; "--show"; "disk.img"]])
      = Ok (None, w2) /\
    trace w2 =
      [OpenFile "disk.img"; Truncate "disk.img" 1073741824; Close "disk.img";
       ExecOutput "losetup" ["-f"; "--show"; "disk.img"]] ++ calls /\
    ~ In (ExecRun "losetup" ["-d"; "/dev/loop0"]) calls.
Proof.
  split; [reflexivity|]. split; [reflexivity|].
  destruct (PreNoMachine_does_not_arm_Cleanup env_ok sample_Join sample_TrimSpace
              (mkWorld sample_verified_action sample_context [])
              (mkWorld sample_verified_action sample_loop_context
                 [OpenFile "disk.img"; Truncate "disk.img" 1073741824;
                  Close "disk.img";
                  ExecOutput "losetup" ["-f"; "--show"; "disk.img"]])
              eq_refl eq_refl) as (_ & w2 & calls & Hrun & Htrace & _ & Hnot).
  exists w2, calls. split; [exact Hrun|]. split; [exact Htrace|exact Hnot].
Defined.

(** A whole build on the host: the loop device is attached, and the
    trace ends with the unmounts, without [losetup -d]. *)
Example lifecycle_on_host_leaks_loop_device :
  exists w',
    lifecycle env_ok sample_Join sample_TrimSpace sample_FromHumanSize OnHost
      sample_world = Ok (None, w') /\
    DebosContext.image (context w') = "/dev/loop0" /\
    ImagePartitionAction.usingLoop (self w') = false /\
    In (ExecOutput "losetup" ["-f"; "--show"; "disk.img"]) (trace w') /\
    List.last (trace w') LogStart = Unmount "/scratch/mnt" /\
    ~ In (ExecRun "losetup" ["-d"; "/dev/loop0"]) (trace w').
Proof.
  eexists. split; [vm_compute; reflexivity|]. cbn [self context trace].
  split; [reflexivity|]. split; [reflexivity|].
  split; [cbn; tauto|]. split; [reflexivity|].
  cbn. intros H. repeat (destruct H as [H|H]; [discriminate|]). exact H.
Qed.

(** C2 on the sample: mkfs fails on the EFI partition, the probe
    answers, and [formatPartition] returns no error. *)
Lemma formatPartition_drops_mkfs_error_witness :
  rerr (env_mkfs_fails []
          (CommandRun "Formatting partition 1"
             ["mkfs.vfat"; "-n"; "EFI"; "/dev/vda1"]))
    = Some "exit status 1" /\
  exists w',
    formatPartition env_mkfs_fails sample_TrimSpace sample_verified_action 0
      sample_vda_context (mkWorld sample_verified_action sample_vda_context [])
      = Ok (None, w') /\
    Partition.FSUUID <$> ImagePartitionAction.Partitions (self w') !! 0
      = Some "ABCD-1234".
Proof.
  split; [reflexivity|].
  destruct (formatPartition_drops_mkfs_error env_mkfs_fails sample_TrimSpace
              sample_verified_action 0
              (Partition.mk 1 "EFI" "0%" "10%" "fat32" ["boot"; "esp"] "")
              sample_vda_context
              (mkWorld sample_verified_action sample_vda_context [])
              "/dev/vda1" "exit status 1" eq_refl eq_refl eq_refl eq_refl)
    as (w' & Hrun & Huuid & _).
  exists w'. split; [exact Hrun|exact Huuid].
Defined.

(** A whole build in which every mkfs fails: [Run] formats the second
    partition after the first failure, mounts, and returns no error. *)
Example lifecycle_survives_mkfs_failure :
  exists w',
    lifecycle env_mkfs_fails sample_Join sample_TrimSpace sample_FromHumanSize
      InMachine sample_world = Ok (None, w') /\
    trace w' =
      [CreateImage "disk.img" 1073741824; LogStart;
       CommandRun "parted" ["parted"; "-s"; "/dev/vda"; "mklabel"; "gpt"];
       CommandRun "parted"
         ["parted"; "-a"; "none"; "-s"; "/dev/vda"; "mkpart"; "EFI";
          "fat32"; "0%"; "10%"];
       CommandRun "parted" ["parted"; "-s"; "/dev/vda"; "set"; "1"; "boot"; "on"];
       CommandRun "parted" ["parted"; "-s"; "/dev/vda"; "set"; "1"; "esp"; "on"];
       CommandRun "Formatting partition 1" ["mkfs.vfat"; "-n"; "EFI"; "/dev/vda1"];
       ExecOutput "blkid"
         ["-o"; "value"; "-s"; "UUID"; "-p"; "-c"; "none"; "/dev/vda1"];
       CommandRun "parted"
         ["parted"; "-a"; "none"; "-s"; "/dev/vda"; "mkpart"; "root";
          "ext4"; "10%"; "100%"];
       CommandRun "Formatting partition 2" ["mkfs.ext4"; "-L"; "root"; "/dev/vda2"];
       ExecOutput "blkid"
         ["-o"; "value"; "-s"; "UUID"; "-p"; "-c"; "none"; "/dev/vda2"];
       MkdirAll "/scratch/mnt" 755; MkdirAll "/scratch/mnt" 755;
       Mount "/dev/vda2" "/scratch/mnt" "ext4";
       MkdirAll "/scratch/mnt/boot/efi" 755;
       Mount "/dev/vda1" "/scratch/mnt/boot/efi" "vfat";
       Unmount "/scratch/mnt/boot/efi"; Unmount "/scratch/mnt"] /\
    Forall (fun c => rerr (env_mkfs_fails [] c) = Some "exit status 1")
      [CommandRun "Formatting partition 1" ["mkfs.vfat"; "-n"; "EFI"; "/dev/vda1"];
       CommandRun "Formatting partition 2" ["mkfs.ext4"; "-L"; "root"; "/dev/vda2"]].
Proof.
  eexists. split; [vm_compute; reflexivity|]. split; [reflexivity|].
  repeat constructor.
Qed.

(** C7 on the formatted sample. *)
Lemma generateFSTab_idempotent_witness :
  Forall (has_UUID (ImagePartitionAction.Partitions sample_formatted_action))
         (ImagePartitionAction.Mountpoints sample_formatted_action) /\
  exists w1,
    generateFSTab sample_formatted_action
      (mkWorld sample_formatted_action sample_vda_context []) = Ok (None, w1) /\
    generateFSTab sample_formatted_action w1 = Ok (None, w1) /\
    DebosContext.imageFSTab (context w1) =
      "UUID=5e5d1a6c-2c0b-4c3f-9a57-7d1f0c2e9b02" +:+ tab +:+ "/" +:+ tab
      +:+ "ext4" +:+ tab +:+ "defaults" +:+ tab +:+ "0" +:+ tab +:+ "0" +:+ newline
      +:+ "UUID=ABCD-1234" +:+ tab +:+ "/boot/efi" +:+ tab +:+ "fat32" +:+ tab
      +:+ "defaults,noatime" +:+ tab +:+ "0" +:+ tab +:+ "0" +:+ newline.
Proof.
  assert (H : Forall (has_UUID (ImagePartitionAction.Partitions sample_formatted_action))
                     (ImagePartitionAction.Mountpoints sample_formatted_action)).
  { repeat constructor; eexists; (split; [reflexivity|discriminate]). }
  split; [exact H|].
  exact (generateFSTab_idempotent sample_formatted_action
           (mkWorld sample_formatted_action sample_vda_context []) H).
Defined.

(** A buffer that already holds text is replaced, not appended to. *)
Example generateFSTab_replaces_buffer :
  exists w1,
    generateFSTab single_root_action
      (mkWorld single_root_action
         (DebosContext.mk "/scratch" "/dev/vda" "/scratch/mnt"
            "stale line" "") [])
      = Ok (None, w1) /\
    DebosContext.imageFSTab (context w1) =
      "UUID=ABCD-1234" +:+ tab +:+ "/" +:+ tab +:+ "ext4" +:+ tab
      +:+ "defaults" +:+ tab +:+ "0" +:+ tab +:+ "0" +:+ newline.
Proof. eexists. split; vm_compute; reflexivity. Qed.



(** C9 on the samples: the unformatted sample makes both generators
    fail, the formatted one makes both succeed. *)
Lemma generators_need_UUIDs_witness :
  (exists e w',
     generateFSTab sample_verified_action
       (mkWorld sample_verified_action sample_vda_context []) = Ok (Some e, w')) /\
  generateKernelRoot sample_verified_action
    (mkWorld sample_verified_action sample_vda_context [])
    = Ok (Some "No fs UUID for root partition !?!",
          mkWorld sample_verified_action sample_vda_context []) /\
  (exists w',
     generateFSTab sample_formatted_action
       (mkWorld sample_formatted_action sample_vda_context []) = Ok (None, w')) /\
  (exists w',
     generateKernelRoot sample_formatted_action
       (mkWorld sample_formatted_action sample_vda_context []) = Ok (None, w')).
Proof.
  destruct (generators_need_UUIDs sample_verified_action
              (mkWorld sample_verified_action sample_vda_context []))
    as (Hfstab & _ & Hroot & _).
  { repeat constructor; eexists; reflexivity. }
  destruct (generators_need_UUIDs sample_formatted_action
              (mkWorld sample_formatted_action sample_vda_context []))
    as (_ & _ & _ & Hboth).
  { repeat constructor; eexists; reflexivity. }
  split.
  { destruct Hfstab as (m & p & w' & _ & _ & _ & Hrun).
    - exists (Mountpoint.mk "/" "root" [] (Some 1)),
             (Partition.mk 2 "root" "10%" "100%" "ext4" [] "").
      split; [now left|]. split; reflexivity.
    - eauto. }
  split.
  { apply (Hroot ltac:(intros [|[|[|j]]] [|[|[|k]]] mj mk Hj Hk Hmj Hmk;
                       cbn in Hj, Hk; try discriminate;
                       try (injection Hj as <-); try (injection Hk as <-);
                       try discriminate; reflexivity)
             (Mountpoint.mk "/" "root" [] (Some 1))
             (Partition.mk 2 "root" "10%" "100%" "ext4" [] ""));
      try reflexivity.
    now left. }
  apply Hboth.
  repeat constructor; eexists; (split; [reflexivity|discriminate]).
Defined.

(** C4 on the sample: two partitions, numbered 1 and 2. *)
Lemma Verify_numbers_partitions_witness :
  (Z.of_nat (length (ImagePartitionAction.Partitions (self sample_world)))
   <= max_int)%Z /\
  Verify sample_FromHumanSize sample_world
    = Ok (None, mkWorld sample_verified_action sample_context []) /\
  map Partition.number (ImagePartitionAction.Partitions sample_verified_action)
    = [1%Z; 2%Z].
Proof.
  assert (Hlen : (Z.of_nat (length (ImagePartitionAction.Partitions
                                      (self sample_world))) <= max_int)%Z)
    by (vm_compute; discriminate).
  split; [exact Hlen|]. split; [reflexivity|].
  exact (proj2 (Verify_numbers_partitions sample_FromHumanSize sample_world
                  (mkWorld sample_verified_action sample_context [])
                  Hlen eq_refl)).
Defined.

(** C6 on the samples: the mountpoints of the sample are bound, [/] to
    the second partition and [/boot/efi] to the first; the dangling
    reference is refused before anything is touched. *)
Lemma Verify_resolves_mountpoints_witness :
  Forall (fun m => Mountpoint.part m = None)
         (ImagePartitionAction.Mountpoints (self sample_world)) /\
  (exists w',
     Verify sample_FromHumanSize sample_world = Ok (None, w') /\
     ImagePartitionAction.Mountpoints (self w') =
       [Mountpoint.mk "/" "root" [] (Some 1);
        Mountpoint.mk "/boot/efi" "EFI" ["noatime"] (Some 0)]) /\
  Forall (fun m => Mountpoint.part m = None)
         (ImagePartitionAction.Mountpoints dangling_action) /\
  exists e w',
    Verify sample_FromHumanSize (mkWorld dangling_action sample_context [])
      = Ok (Some e, w') /\
    trace w' = [] /\
    forall how,
      lifecycle env_ok sample_Join sample_TrimSpace sample_FromHumanSize how
        (mkWorld dangling_action sample_context []) = Ok (Some e, w').
Proof.
  assert (Hs : Forall (fun m => Mountpoint.part m = None)
                      (ImagePartitionAction.Mountpoints (self sample_world)))
    by (repeat constructor).
  assert (H : Forall (fun m => Mountpoint.part m = None)
                     (ImagePartitionAction.Mountpoints dangling_action))
    by (repeat constructor).
  split; [exact Hs|]. split; [|split; [exact H|]].
  - destruct (Verify_resolves_mountpoints env_ok sample_Join sample_TrimSpace
                sample_FromHumanSize sample_world Hs) as (Hex & Hbind & _).
    destruct Hex as [w' HV].
    { constructor; [|constructor; [|constructor]]; repeat split; discriminate. }
    { constructor; [|constructor; [|constructor]].
      - exists (Partition.mk 0 "root" "10%" "100%" "ext4" [] "").
        split; [right; left; reflexivity|reflexivity].
      - exists (Partition.mk 0 "EFI" "0%" "10%" "fat32" ["boot"; "esp"] "").
        split; [left; reflexivity|reflexivity]. }
    { reflexivity. }
    exists w'. split; [exact HV|].
    destruct (Hbind w' HV) as (Hnames & Hlen & Hidx).
    destruct (Hidx 0 (Mountpoint.mk "/" "root" [] None) eq_refl)
      as (k0 & p0 & Hm0 & Hp0 & Hn0 & _).
    destruct (Hidx 1 (Mountpoint.mk "/boot/efi" "EFI" ["noatime"] None) eq_refl)
      as (k1 & p1 & Hm1 & Hp1 & Hn1 & _).
    assert (Hq0 : map Partition.Name
                    (ImagePartitionAction.Partitions (self w')) !! k0
                  = Some "root")
      by (rewrite list_lookup_fmap, Hp0; cbn; now rewrite Hn0).
    assert (Hq1 : map Partition.Name
                    (ImagePartitionAction.Partitions (self w')) !! k1
                  = Some "EFI")
      by (rewrite list_lookup_fmap, Hp1; cbn; now rewrite Hn1).
    rewrite Hnames in Hq0, Hq1.
    assert (k0 = 1) as -> by (destruct k0 as [|[|k0]]; vm_compute in Hq0; congruence).
    assert (k1 = 0) as -> by (destruct k1 as [|[|k1]]; vm_compute in Hq1; congruence).
    destruct (ImagePartitionAction.Mountpoints (self w')) as [|a [|b [|c rest]]];
      try discriminate Hlen.
    injection Hm0 as ->. injection Hm1 as ->. reflexivity.
  - apply (proj2 (proj2 (Verify_resolves_mountpoints env_ok sample_Join
                           sample_TrimSpace sample_FromHumanSize
                           (mkWorld dangling_action sample_context []) H))).
    exists (Mountpoint.mk "/home" "home" [] None).
    split; [right; left; reflexivity|].
    intros p [<-|[]]. discriminate.
Defined.

Example Verify_names_dangling_mountpoint :
  exists w',
    Verify sample_FromHumanSize (mkWorld dangling_action sample_context [])
      = Ok (Some "Couldn't fount partition for /home", w') /\
    trace w' = [].
Proof. eexists. split; vm_compute; reflexivity. Qed.

Example Verify_binds_sample_mountpoints :
  exists w',
    Verify sample_FromHumanSize sample_world = Ok (None, w') /\
    map Mountpoint.part (ImagePartitionAction.Mountpoints (self w'))
      = [Some 1; Some 0].
Proof. eexists. split; vm_compute; reflexivity. Qed.

(** *** Further properties on the samples *)



Lemma Run_success_artifacts_witness :
  exists w',
    Run env_ok sample_Join sample_TrimSpace sample_verified_action
      sample_verified_world = Ok (None, w') /\
    DebosContext.imageMntDir (context w') = "/scratch/mnt" /\
    DebosContext.imageFSTab (context w') =
      fstab_of (ImagePartitionAction.Partitions sample_formatted_action)
               (ImagePartitionAction.Mountpoints sample_formatted_action) /\
    DebosContext.imageKernelRoot (context w') =
      "root=UUID=5e5d1a6c-2c0b-4c3f-9a57-7d1f0c2e9b02".
Proof.
  eexists.
  match goal with
  | |- ?A /\ _ => assert (H : A) by (vm_compute; reflexivity)
  end.
  split; [exact H|].
  destruct (Run_success_artifacts env_ok sample_Join sample_TrimSpace _ _ _ H)
    as (_ & Hmnt & Hfstab & _ & Hroot).
  split; [exact Hmnt|]. split; [exact Hfstab|].
  exact (Hroot [] (Mountpoint.mk "/" "root" [] (Some 1%nat))
           [Mountpoint.mk "/boot/efi" "EFI" ["noatime"] (Some 0%nat)]
           (Partition.mk 2 "root" "10%" "100%" "ext4" []
              "5e5d1a6c-2c0b-4c3f-9a57-7d1f0c2e9b02")
           eq_refl (Forall_nil_2 _) eq_refl eq_refl).
Defined.

Lemma Run_success_trace_witness :
  exists w',
    Run env_ok sample_Join sample_TrimSpace (self sample_verified_world)
      sample_verified_world = Ok (None, w') /\
    mount_targets (trace w') = ["/scratch/mnt"; "/scratch/mnt/boot/efi"] /\
    length (trace w') = 15.
Proof.
  eexists.
  match goal with
  | |- ?A /\ _ => assert (H : A) by (vm_compute; reflexivity)
  end.
  split; [exact H|].
  rewrite (Run_success_trace env_ok sample_Join sample_TrimSpace _ _ H).
  split; vm_compute; reflexivity.
Defined.

(** The mount on [/boot/efi] fails: the error names the EFI partition,
    and the root mountpoint stays mounted. *)
Lemma Run_mounts_failure_witness :
  exists w',
    Run_mounts env_mount_fails sample_Join sample_formatted_action
      (ImagePartitionAction.Mountpoints sample_formatted_action)
      sample_mounting_world
      = Ok (Some "EFI mount failed: no such device", w') /\
    exists before m after,
      ImagePartitionAction.Mountpoints sample_formatted_action =
        before ++ m :: after.
Proof.
  eexists.
  match goal with
  | |- ?A /\ _ => assert (H : A) by (vm_compute; reflexivity)
  end.
  split; [exact H|].
  destruct (Run_mounts_failure env_mount_fails sample_Join _ _ _ _ _ H)
    as (before & m & after & _ & _ & Hms & _).
  exists before, m, after. exact Hms.
Defined.

Lemma Cleanup_unmounts_what_Run_mounted_witness :
  exists w1,
    Run env_ok sample_Join sample_TrimSpace (self sample_verified_world)
      sample_verified_world = Ok (None, w1) /\
    exists w2,
      Cleanup env_ok sample_Join (self w1) (context w1) w1 = Ok (None, w2) /\
      unmount_targets (drop (length (trace w1)) (trace w2)) =
        rev (mount_targets (drop (length (trace sample_verified_world))
                                 (trace w1))).
Proof.
  eexists.
  match goal with
  | |- ?A /\ _ => assert (H : A) by (vm_compute; reflexivity)
  end.
  split; [exact H|].
  exact (Cleanup_unmounts_what_Run_mounted env_ok sample_Join sample_TrimSpace
           _ _ H).
Defined.

(** The second partition lacks its end: it is the one reported, the
    third is neither checked nor numbered. *)
Lemma Verify_stops_at_first_incomplete_partition_witness :
  exists w',
    Verify sample_FromHumanSize (mkWorld incomplete_action sample_context [])
      = Ok (Some "Partition root missing end", w') /\
    map Partition.number (ImagePartitionAction.Partitions (self w'))
      = [1%Z; 2%Z; 0%Z].
Proof.
  eexists. split.
  - apply (Verify_stops_at_first_incomplete_partition sample_FromHumanSize
             (mkWorld incomplete_action sample_context [])
             [Partition.mk 0 "EFI" "0%" "10%" "fat32" [] ""]
             [Partition.mk 0 "home" "" "" "" [] ""]
             (Partition.mk 0 "root" "10%" "" "ext4" [] "")
             "Partition root missing end").
    + reflexivity.
    + reflexivity.
    + constructor; [|constructor]. repeat split; discriminate.
    + reflexivity.
  - reflexivity.
Defined.

Lemma Verify_succeeds_iff_witness :
  Forall (fun m => Mountpoint.part m = None)
         (ImagePartitionAction.Mountpoints (self sample_world)) /\
  exists w', Verify sample_FromHumanSize sample_world = Ok (None, w').
Proof.
  assert (H : Forall (fun m => Mountpoint.part m = None)
                     (ImagePartitionAction.Mountpoints (self sample_world)))
    by (repeat constructor).
  split; [exact H|].
  apply (proj2 (proj1 (Verify_succeeds_iff sample_FromHumanSize sample_world H))).
  split; [|split].
  - constructor; [|constructor; [|constructor]]; repeat split; discriminate.
  - constructor; [|constructor; [|constructor]].
    + exists (Partition.mk 0 "root" "10%" "100%" "ext4" [] "").
      split; [right; left; reflexivity|reflexivity].
    + exists (Partition.mk 0 "EFI" "0%" "10%" "fat32" ["boot"; "esp"] "").
      split; [left; reflexivity|reflexivity].
  - reflexivity.
Defined.

Lemma Verify_reports_bad_size_witness :
  exists w',
    Verify sample_FromHumanSize (mkWorld bad_size_action sample_context [])
      = Ok (Some "Failed to parse image size: lots", w') /\
    ImagePartitionAction.size (self w') = 0%Z.
Proof.
  apply (Verify_reports_bad_size sample_FromHumanSize
           (mkWorld bad_size_action sample_context []) "invalid size").
  - constructor; [|constructor; [|constructor]]; repeat split; discriminate.
  - constructor; [|constructor; [|constructor]].
    + exists (Partition.mk 0 "root" "10%" "100%" "ext4" [] "").
      split; [right; left; reflexivity|reflexivity].
    + exists (Partition.mk 0 "EFI" "0%" "10%" "fat32" ["boot"; "esp"] "").
      split; [left; reflexivity|reflexivity].
  - reflexivity.
Defined.

Lemma Verify_idempotent_witness :
  Verify sample_FromHumanSize sample_world
    = Ok (None, mkWorld sample_verified_action sample_context []) /\
  Verify sample_FromHumanSize (mkWorld sample_verified_action sample_context [])
    = Ok (None, mkWorld sample_verified_action sample_context []).
Proof.
  split; [reflexivity|].
  exact (Verify_idempotent sample_FromHumanSize sample_world _ None eq_refl).
Defined.

Lemma Verify_size_reaches_provisioning_witness :
  Verify sample_FromHumanSize sample_world
    = Ok (None, mkWorld sample_verified_action sample_context []) /\
  forall args r w2,
    PreMachine env_ok sample_verified_action args
      (mkWorld sample_verified_action sample_context []) = Ok (r, w2) ->
    trace w2 = [CreateImage "disk.img" 1073741824].
Proof.
  split; [reflexivity|].
  exact (proj1 (Verify_size_reaches_provisioning env_ok sample_TrimSpace
                  sample_FromHumanSize sample_world
                  (mkWorld sample_verified_action sample_context []) eq_refl)).
Defined.

(** The second mountpoint is on a partition without UUID: the buffer is
    left with the line of the first. *)
Lemma generateFSTab_stops_at_first_missing_UUID_witness :
  exists w',
    generateFSTab two_roots_action two_roots_world
      = Ok (Some "Missing fs UUID for partition b!?!", w') /\
    DebosContext.imageFSTab (context w') =
      fstab_line (Partition.mk 1 "a" "0%" "50%" "ext4" [] "ABCD-1234")
                 (Mountpoint.mk "/" "a" [] (Some 0%nat)).
Proof.
  eexists. split.
  - apply (generateFSTab_stops_at_first_missing_UUID two_roots_action
             two_roots_world [Mountpoint.mk "/" "a" [] (Some 0%nat)] []
             (Mountpoint.mk "/" "b" [] (Some 1%nat))
             (Partition.mk 2 "b" "50%" "100%" "ext4" [] "")).
    + reflexivity.
    + constructor; [|constructor].
      eexists. split; [reflexivity|discriminate].
    + reflexivity.
    + reflexivity.
  - vm_compute. reflexivity.
Defined.

(** The sample before [Verify]: its root mountpoint is unbound. *)
Lemma generators_panic_on_unbound_mountpoint_witness :
  generateFSTab sample_action sample_world = Panicked NilDereference /\
  generateKernelRoot sample_action sample_world = Panicked NilDereference.
Proof.
  destruct (generators_panic_on_unbound_mountpoint sample_action sample_world
              [] [Mountpoint.mk "/boot/efi" "EFI" ["noatime"] None]
              (Mountpoint.mk "/" "root" [] None) eq_refl eq_refl)
    as (Hfstab & Hroot & _).
  split; [exact (Hfstab (Forall_nil_2 _))|exact (Hroot (Forall_nil_2 _) eq_refl)].
Defined.

Lemma generateKernelRoot_first_root_wins_witness :
  exists w',
    generateKernelRoot two_roots_action two_roots_world = Ok (None, w') /\
    DebosContext.imageKernelRoot (context w') = "root=UUID=ABCD-1234".
Proof.
  eexists. split.
  - apply (generateKernelRoot_first_root_wins two_roots_action two_roots_world
             [] [Mountpoint.mk "/" "b" [] (Some 1%nat)]
             (Mountpoint.mk "/" "a" [] (Some 0%nat))
             (Partition.mk 1 "a" "0%" "50%" "ext4" [] "ABCD-1234")).
    + reflexivity.
    + constructor.
    + reflexivity.
    + reflexivity.
    + discriminate.
  - reflexivity.
Defined.

Lemma getPartitionDevice_injective_witness :
  getPartitionDevice sample_verified_action 2 sample_vda_context
    = Ok "/dev/vda2" /\
  getPartitionDevice sample_formatted_action (1 + 1) sample_vda_context
    = Ok "/dev/vda2" /\
  (2 = 1 + 1)%Z.
Proof.
  split; [reflexivity|]. split; [reflexivity|].
  exact (getPartitionDevice_injective sample_verified_action
           sample_formatted_action 2 (1 + 1) sample_vda_context "/dev/vda2"
           eq_refl eq_refl).
Defined.
